(** * Bank statement extractor: the table parser, the filter, the summary
      metrics and the Excel export of [main.py]

    The development follows [main.py] function by function.  A Python [str]
    is a [string]; its characters are the code points U+0000 .. U+00FF.
    Exceptions are values of [exn] returned on the left of a sum.
    Floating-point amounts are IEEE 754 binary64 values, taken from
    [SpecFloat] with precision 53 and maximal exponent 1024. *)

From Stdlib Require Import List Bool Arith ZArith Lia.
From Stdlib Require Import Ascii String.
From Stdlib Require Import Floats.SpecFloat.
Import ListNotations.

Local Open Scope string_scope.
Local Open Scope list_scope.

(* ================================================================== *)
(** ** Python string primitives used by the parser *)
(* ================================================================== *)

Module PyStr.

(** Truth value of a [str]: the empty string is falsy. *)
Definition truthy (s : string) : bool :=
  match s with
  | EmptyString => false
  | String _ _ => true
  end.

(** [s.split(sep)] for a separator of one character: the pieces between
    the occurrences of [sep], in order; never an empty list. *)
Fixpoint split (sep : ascii) (s : string) : list string :=
  match s with
  | EmptyString => [EmptyString]
  | String c s' =>
      if Ascii.eqb c sep then EmptyString :: split sep s'
      else match split sep s' with
           | w :: ws => String c w :: ws
           | [] => [String c EmptyString]
           end
  end.

(** [sep.join(parts)]; used to write replies line by line. *)
Fixpoint join (sep : ascii) (parts : list string) : string :=
  match parts with
  | [] => EmptyString
  | [p] => p
  | p :: rest => (p ++ String sep (join sep rest))%string
  end.

(** [s.startswith(p)] *)
Fixpoint startswith (p s : string) : bool :=
  match p, s with
  | EmptyString, _ => true
  | String _ _, EmptyString => false
  | String a p', String b s' => Ascii.eqb a b && startswith p' s'
  end.

(** [sub in s]: [sub] occurs in [s] as a contiguous substring. *)
Fixpoint contains (sub s : string) : bool :=
  startswith sub s ||
  match s with
  | EmptyString => false
  | String _ s' => contains sub s'
  end.

(** Membership of a character in a set of characters given as a string. *)
Fixpoint mem (c : ascii) (chars : string) : bool :=
  match chars with
  | EmptyString => false
  | String d rest => Ascii.eqb c d || mem c rest
  end.

(** [str.isspace] on one code point below U+0100: the characters
    U+0009..U+000D, U+001C..U+001F, U+0020, U+0085 and U+00A0. *)
Definition isspace (c : ascii) : bool :=
  let n := nat_of_ascii c in
  (((9 <=? n) && (n <=? 13)) || ((28 <=? n) && (n <=? 31))
   || (n =? 32) || (n =? 133) || (n =? 160))%nat.

Section Strip.
(** The characters that are removed. *)
Variable drop : ascii -> bool.

Fixpoint lstrip_by (s : string) : string :=
  match s with
  | EmptyString => EmptyString
  | String c s' => if drop c then lstrip_by s' else s
  end.

Fixpoint rstrip_by (s : string) : string :=
  match s with
  | EmptyString => EmptyString
  | String c s' =>
      match rstrip_by s' with
      | EmptyString => if drop c then EmptyString else String c EmptyString
      | r => String c r
      end
  end.

Definition strip_by (s : string) : string := rstrip_by (lstrip_by s).
End Strip.

(** [s.strip()] *)
Definition strip (s : string) : string := strip_by isspace s.

(** [s.strip(chars)] *)
Definition strip_chars (chars s : string) : string :=
  strip_by (fun c => mem c chars) s.

(** [s.replace(old, '')] for [old] of one character. *)
Fixpoint remove_char (old : ascii) (s : string) : string :=
  match s with
  | EmptyString => EmptyString
  | String c s' =>
      if Ascii.eqb c old then remove_char old s'
      else String c (remove_char old s')
  end.

End PyStr.

(** The line feed, the separator of [response.split('\n')]. *)
Definition LF : ascii := "010"%char.

(* ================================================================== *)
(** ** The loop of [extract_table_from_response] *)
(* ================================================================== *)

(** The two local variables the loop updates. *)
Record loop_state : Type := mk_loop_state {
  table_data : list (list string);
  start_parsing : bool
}.

Definition loop_init : loop_state :=
  {| table_data := []; start_parsing := false |}.

(** [[cell.strip() for cell in line.split('|') if cell.strip()]] *)
Definition row_of_line (line : string) : list string :=
  map PyStr.strip
      (filter (fun cell => PyStr.truthy (PyStr.strip cell))
              (PyStr.split "|" line)).

(** One iteration of [for line in lines]. *)
Definition loop_body (st : loop_state) (line : string) : loop_state :=
  if PyStr.contains "|" line then
    if PyStr.contains "Date" line then
      {| table_data := table_data st; start_parsing := true |}
    else if start_parsing st && PyStr.truthy (PyStr.strip_chars "|- " line)
    then
      let row := row_of_line line in
      if Nat.eqb (List.length row) 4 then
        {| table_data := table_data st ++ [row];
           start_parsing := start_parsing st |}
      else st
    else st
  else st.

Definition run_loop (lines : list string) (st : loop_state) : loop_state :=
  fold_left loop_body lines st.

(** A candidate row: a line with the delimiter, ['|' in line]. *)
Definition is_candidate (line : string) : bool := PyStr.contains "|" line.

(** A line the loop takes for a header row: a candidate with ['Date'] in
    it.  The header marker of a reply is the first such line. *)
Definition is_header (line : string) : bool :=
  is_candidate line && PyStr.contains "Date" line.

(** The state of the loop once a header row has been met, with no row
    kept yet. *)
Definition loop_started : loop_state :=
  {| table_data := []; start_parsing := true |}.

(** Where the rows of [table_data] come from. *)
Definition kept_line (line : string) : Prop :=
  is_candidate line = true /\ PyStr.contains "Date" line = false /\
  PyStr.strip_chars "|- " line <> EmptyString /\
  List.length (row_of_line line) = 4.

(* ================================================================== *)
(** ** [float(str)]: what [astype(float)] applies to every cell *)
(* ================================================================== *)

(** [Series.astype(float)] on a column of [str] objects converts every
    element as the builtin [float] does.  The definitions follow CPython's
    [PyFloat_FromString]: decimal digits and spaces outside ASCII are mapped
    to ASCII, underscores between digits are removed, ASCII white space is
    stripped on both sides, and the remainder must be, as a whole, a decimal
    literal or one of [inf], [infinity], [nan] with an optional sign.  The
    value of a literal is the binary64 number nearest to it, ties to even;
    a literal too large in magnitude gives an infinity.  (CPython also
    refuses literals of more than 10^9 significant digits; strings of that
    size are outside this model.) *)
Module PyFloat.

Definition float : Type := spec_float.

Definition prec : Z := 53.
Definition emax : Z := 1024.

Definition zero : float := S754_zero false.
Definition add (x y : float) : float := SFadd prec emax x y.
Definition sub (x y : float) : float := SFsub prec emax x y.

Definition is_nan (x : float) : bool :=
  match x with
  | S754_nan => true
  | _ => false
  end.

(** The binary64 number nearest to [p / q], with sign [neg]. *)
Definition round_ratio (neg : bool) (p q : positive) : float :=
  let '(mz, ez, lz) := SFdiv_core_binary prec emax (Zpos p) 0 (Zpos q) 0 in
  binary_round_aux prec emax neg mz ez lz.

(** The binary64 number nearest to [d * 10^e], for [0 <= d]. *)
Definition of_decimal (neg : bool) (d e : Z) : float :=
  match (d * 10 ^ Z.max 0 e)%Z, (10 ^ Z.max 0 (- e))%Z with
  | Zpos p, Zpos q => round_ratio neg p q
  | _, _ => S754_zero neg
  end.

Definition code (c : ascii) : nat := nat_of_ascii c.

Definition is_digit (c : ascii) : bool :=
  ((48 <=? code c) && (code c <=? 57))%nat.

Definition digit_value (c : ascii) : Z := (Z.of_nat (code c) - 48)%Z.

(** [Py_ISSPACE]: the white space of the C locale. *)
Definition is_c_space (c : ascii) : bool :=
  (((9 <=? code c) && (code c <=? 13)) || (code c =? 32))%nat.

(** [Py_TOLOWER] *)
Definition to_lower (c : ascii) : ascii :=
  if ((65 <=? code c) && (code c <=? 90))%nat
  then ascii_of_nat (code c + 32) else c.

(** [_PyUnicode_TransformDecimalAndSpaceToASCII] on code points below
    U+0100, none of which is a decimal digit outside ASCII: the first
    character that is neither ASCII nor a space becomes ['?'] and ends
    the result. *)
Fixpoint transform (s : string) : string :=
  match s with
  | EmptyString => EmptyString
  | String c s' =>
      if (code c <? 127)%nat then String c (transform s')
      else if PyStr.isspace c then String " " (transform s')
      else String "?" EmptyString
  end.

Fixpoint is_ascii (s : string) : bool :=
  match s with
  | EmptyString => true
  | String c s' => (code c <? 128)%nat && is_ascii s'
  end.

Definition to_ascii (s : string) : string :=
  if is_ascii s then s else transform s.

(** The loop of [_Py_string_to_number_with_underscores]: an underscore is
    dropped when it stands between two digits and refused elsewhere. *)
Fixpoint drop_underscores (prev : ascii) (s : string) : option string :=
  match s with
  | EmptyString => if Ascii.eqb prev "_" then None else Some EmptyString
  | String c s' =>
      if Ascii.eqb c "_" then
        if is_digit prev then drop_underscores c s' else None
      else if Ascii.eqb prev "_" && negb (is_digit c) then None
      else option_map (String c) (drop_underscores c s')
  end.

Definition NUL : ascii := "000"%char.

Definition without_underscores (s : string) : option string :=
  if PyStr.mem "_" s then
    match drop_underscores NUL s with
    | Some dup => if PyStr.mem NUL dup then None else Some dup
    | None => None
    end
  else Some s.

(** Reads a run of decimal digits: the value accumulated on [acc], the
    number of digits read added to [n], and the rest of the input. *)
Fixpoint read_digits (acc n : Z) (s : string) : Z * Z * string :=
  match s with
  | String c s' =>
      if is_digit c
      then read_digits (10 * acc + digit_value c)%Z (n + 1)%Z s'
      else (acc, n, s)
  | EmptyString => (acc, n, s)
  end.

Definition read_sign (s : string) : bool * string :=
  match s with
  | String "-" r => (true, r)
  | String "+" r => (false, r)
  | _ => (false, s)
  end.

(** The exponent part: it is read only when at least one digit follows
    the letter and the optional sign. *)
Definition read_exponent (s : string) : Z * string :=
  match s with
  | String c r =>
      if Ascii.eqb c "e" || Ascii.eqb c "E" then
        let (eneg, r1) := read_sign r in
        let '(v, n, r2) := read_digits 0 0 r1 in
        if (n =? 0)%Z then (0%Z, s)
        else ((if eneg then - v else v)%Z, r2)
      else (0%Z, s)
  | EmptyString => (0%Z, s)
  end.

(** [_Py_dg_strtod]: the longest decimal literal at the start of [s] and
    what follows it; [None] when [s] starts with no literal. *)
Definition strtod (s : string) : option (float * string) :=
  let (neg, s1) := read_sign s in
  let '(ip, nip, s2) := read_digits 0 0 s1 in
  let '(d, nfp, s3) :=
    match s2 with
    | String "." r => read_digits ip 0 r
    | _ => (ip, 0%Z, s2)
    end in
  if (nip + nfp =? 0)%Z then None
  else
    let (e, s4) := read_exponent s3 in
    Some (of_decimal neg d (e - nfp), s4).

(** [case_insensitive_match]: [t], in lower case, is a prefix of [s] up to
    the case of letters; returns what follows it. *)
Fixpoint case_insensitive_match (s t : string) : option string :=
  match t, s with
  | EmptyString, _ => Some s
  | String _ _, EmptyString => None
  | String b t', String a s' =>
      if Ascii.eqb (to_lower a) b then case_insensitive_match s' t'
      else None
  end.

(** [_Py_parse_inf_or_nan] *)
Definition parse_inf_or_nan (s : string) : option (float * string) :=
  let (neg, s1) := read_sign s in
  match case_insensitive_match s1 "inf" with
  | Some s2 =>
      match case_insensitive_match s2 "inity" with
      | Some s3 => Some (S754_infinity neg, s3)
      | None => Some (S754_infinity neg, s2)
      end
  | None =>
      match case_insensitive_match s1 "nan" with
      | Some s2 => Some (S754_nan, s2)
      | None => None
      end
  end.

(** [PyOS_string_to_double] without an overflow exception. *)
Definition PyOS_string_to_double (s : string) : option (float * string) :=
  match strtod s with
  | Some r => Some r
  | None => parse_inf_or_nan s
  end.

(** [float_from_string_inner]: the trailing strip leaves the first
    character, which is not a space, in place. *)
Definition float_from_string_inner (s : string) : option float :=
  match PyStr.lstrip_by is_c_space s with
  | EmptyString => None
  | s1 =>
      match PyOS_string_to_double (PyStr.rstrip_by is_c_space s1) with
      | Some (x, EmptyString) => Some x
      | _ => None
      end
  end.

(** [float(s)] for a [str]; [None] stands for [ValueError]. *)
Definition python_float (s : string) : option float :=
  match without_underscores (to_ascii s) with
  | Some s' => float_from_string_inner s'
  | None => None
  end.

End PyFloat.


(* ================================================================== *)
(** ** The frame built by [extract_table_from_response] *)
(* ================================================================== *)

(** The exceptions of the modelled code.  [ValueError] carries the text that
    could not be converted (the specification calls the failure of the
    amount conversion [AmountParseError]); [OSError] stands for the failures
    of the file system and of the spreadsheet writer. *)
Inductive exn : Type :=
| ValueError (text : string)
| OSError (path : string).

Definition result (A : Type) : Type := (exn + A)%type.

Definition ret {A : Type} (a : A) : result A := inr a.
Definition raise {A : Type} (e : exn) : result A := inl e.

Definition bind {A B : Type} (m : result A) (k : A -> result B) : result B :=
  match m with
  | inl e => inl e
  | inr a => k a
  end.

Notation "x <- m ;; k" := (bind m (fun x => k))
  (at level 61, m at next level, right associativity).

(** A row of the frame as [pd.DataFrame(table_data, columns=[...])] builds
    it: the four columns ['Date'], ['Concept'], ['Amount (MXN)'] and
    ['Type'], all of them text. *)
Record TextRow : Type := mk_TextRow {
  text_Date : string;
  text_Concept : string;
  text_Amount : string;
  text_Type : string
}.

(** A row of the returned frame: the amount column holds floats. *)
Record TransactionRecord : Type := mk_TransactionRecord {
  Date : string;
  Concept : string;
  Amount_MXN : PyFloat.float;
  Type_ : string
}.

Definition DataFrame : Type := list TransactionRecord.

(** Applies a fallible function to the elements in order; the first
    failure is the result. *)
Fixpoint traverse {A B : Type} (f : A -> result B) (l : list A)
  : result (list B) :=
  match l with
  | [] => ret []
  | a :: l' =>
      b <- f a ;;
      bs <- traverse f l' ;;
      ret (b :: bs)
  end.

Definition text_row (row : list string) : result TextRow :=
  match row with
  | [d; c; a; t] => ret (mk_TextRow d c a t)
  | _ => raise (ValueError "4 columns passed")
  end.

(** [pd.DataFrame(table_data, columns=[four names])].  The constructor
    raises [ValueError] when a row does not have four cells; the loop only
    ever keeps rows of four cells ([table_data_rows]), so
    [extract_table_from_response] never takes this branch
    ([pd_DataFrame_table_data]). *)
Definition pd_DataFrame (rows : list (list string)) : result (list TextRow) :=
  traverse text_row rows.

(** [.str.replace(',', '')] on one cell. *)
Definition remove_commas (s : string) : string := PyStr.remove_char "," s.

(** [float] applied to one cell by [astype(float)]. *)
Definition to_float (s : string) : result PyFloat.float :=
  match PyFloat.python_float s with
  | Some x => ret x
  | None => raise (ValueError s)
  end.

(** [.str.replace(',', '').astype(float)] on one cell. *)
Definition parse_amount (s : string) : result PyFloat.float :=
  to_float (remove_commas s).

Definition convert_row (r : TextRow) : result TransactionRecord :=
  x <- parse_amount (text_Amount r) ;;
  ret (mk_TransactionRecord (text_Date r) (text_Concept r) x (text_Type r)).

(** [df['Amount (MXN)'] = df['Amount (MXN)'].str.replace(',', '').astype(float)]:
    the cells are converted in order and the first one that is refused
    raises; no frame is produced then. *)
Definition convert_amounts (frame : list TextRow) : result DataFrame :=
  traverse convert_row frame.

(** One kept row taken through both steps, the constructor and the
    conversion of its amount. *)
Definition record_of_row (row : list string) : result TransactionRecord :=
  r <- text_row row ;;
  convert_row r.

(** The body of the function once [response] is split into lines. *)
Definition extract_from_lines (lines : list string) : result DataFrame :=
  let st := run_loop lines loop_init in
  frame <- pd_DataFrame (table_data st) ;;
  convert_amounts frame.

Definition extract_table_from_response (response : string)
  : result DataFrame :=
  extract_from_lines (PyStr.split LF response).


(* ================================================================== *)
(** ** The filter and the summary metrics of [main] *)
(* ================================================================== *)

(** [series.isin(values)]: one boolean per row. *)
Definition isin (series values : list string) : list bool :=
  map (fun v => existsb (String.eqb v) values) series.

(** [series == value]: one boolean per row. *)
Definition series_eq (series : list string) (value : string) : list bool :=
  map (fun v => String.eqb v value) series.

(** [df[mask]]: the rows whose entry in the mask is [True], in order. *)
Fixpoint boolean_index {A : Type} (df : list A) (mask : list bool) : list A :=
  match df, mask with
  | r :: df', b :: mask' =>
      if b then r :: boolean_index df' mask' else boolean_index df' mask'
  | _, _ => []
  end.

(** [series.sum()] on a column of floats: missing values (NaN) are skipped
    and the sum of no value at all is [0.0].  The values are added from the
    left; the source does not fix the order in which pandas adds them, and
    the statements below only use the sum of an empty column. *)
Definition series_sum (series : list PyFloat.float) : PyFloat.float :=
  fold_left PyFloat.add
            (filter (fun x => negb (PyFloat.is_nan x)) series)
            PyFloat.zero.

(** [df[df['Type'] == label]['Amount (MXN)'].sum()] *)
Definition total_of (label : string) (df : DataFrame) : PyFloat.float :=
  series_sum
    (map Amount_MXN (boolean_index df (series_eq (map Type_ df) label))).

Definition total_income (df : DataFrame) : PyFloat.float :=
  total_of "Income" df.

Definition total_expenses (df : DataFrame) : PyFloat.float :=
  total_of "Expense" df.

Definition balance (df : DataFrame) : PyFloat.float :=
  PyFloat.sub (total_income df) (total_expenses df).

(** A [datetime.date], as [st.date_input] returns it. *)
Record date : Type := mk_date { year : Z; month : Z; day : Z }.

(** What the user chooses in the widgets of the first tab. *)
Record UserInput : Type := mk_UserInput {
  selected_types : list string;   (* st.multiselect("Filter by Type") *)
  date_range : date * date;       (* st.date_input("Select Date Range") *)
  preview_clicked : bool          (* st.button("Preview Excel Format") *)
}.

(** [mask = df['Type'].isin(selected_types)] *)
Definition mask (df : DataFrame) (u : UserInput) : list bool :=
  isin (map Type_ df) (selected_types u).

(** [df_filtered = df[mask]] *)
Definition df_filtered (df : DataFrame) (u : UserInput) : DataFrame :=
  boolean_index df (mask df u).

(* ================================================================== *)
(** ** The files and the page: what the code acts on *)
(* ================================================================== *)

(** The file system: the existing paths with their contents. *)
Definition FileSystem : Type := list (string * string).

Fixpoint fs_lookup (path : string) (fs : FileSystem) : option string :=
  match fs with
  | [] => None
  | (p, data) :: rest => if String.eqb p path then Some data
                         else fs_lookup path rest
  end.

Definition fs_exists (path : string) (fs : FileSystem) : bool :=
  match fs_lookup path fs with
  | Some _ => true
  | None => false
  end.

Definition fs_remove (path : string) (fs : FileSystem) : FileSystem :=
  filter (fun entry => negb (String.eqb (fst entry) path)) fs.

Definition fs_write (path data : string) (fs : FileSystem) : FileSystem :=
  (path, data) :: fs_remove path fs.

(** What a call of the user-interface library puts on the page.  Of each
    element only the data it shows is kept; layout (tabs, columns) and
    number formats are left out. *)
Inductive Element : Type :=
| Title (text : string)                      (* st.title *)
| Text (text : string)                       (* st.write, st.subheader *)
| FileUploader (label : string)              (* st.file_uploader *)
| Spinner (text : string)                    (* st.spinner *)
| Multiselect (label : string) (options : list string)
| DateInput (label : string)                 (* st.date_input *)
| Table (df : DataFrame)                     (* st.dataframe *)
| Button (label : string)                    (* st.button *)
| DownloadLink (href : string)               (* st.markdown of the anchor *)
| Metric (label : string) (value : PyFloat.float)      (* st.metric *)
| BarChart (column : list string).   (* st.bar_chart(column.value_counts()) *)

(** The state the code acts on: the files on disk and the page so far. *)
Record World : Type := mk_World {
  files : FileSystem;
  screen : list Element
}.

(** Code that acts on the world and may raise. *)
Definition IO (A : Type) : Type := World -> World * result A.

Definition io_ret {A : Type} (a : A) : IO A := fun w => (w, inr a).

Definition io_bind {A B : Type} (m : IO A) (k : A -> IO B) : IO B :=
  fun w =>
    match m w with
    | (w', inl e) => (w', inl e)
    | (w', inr a) => k a w'
    end.

(** A computation that does not act on the world. *)
Definition io_lift {A : Type} (r : result A) : IO A := fun w => (w, r).

(** A call that puts one element on the page. *)
Definition show (e : Element) : IO unit :=
  fun w => ({| files := files w; screen := screen w ++ [e] |}, inr tt).

Definition set_files (fs : FileSystem) (w : World) : World :=
  {| files := fs; screen := screen w |}.

Notation "x <~ m ;; k" := (io_bind m (fun x => k))
  (at level 61, m at next level, right associativity).

(** [series.unique()]: the distinct values, in the order in which they
    first appear. *)
Fixpoint unique_from (seen series : list string) : list string :=
  match series with
  | [] => []
  | v :: rest =>
      if existsb (String.eqb v) seen then unique_from seen rest
      else v :: unique_from (v :: seen) rest
  end.

Definition unique (series : list string) : list string :=
  unique_from [] series.

(* ================================================================== *)
(** ** [create_excel_download_link] and [main] *)
(* ================================================================== *)

Section ExcelExport.

(** The collaborators outside the repository: the spreadsheet writer
    behind [df.to_excel] (the bytes of the workbook, or the exception it
    raises), the name [tempfile] picks (without its suffix), whether
    reading the file back fails, [base64.b64encode], and the check of the
    default values of the date widget, [pd.to_datetime(df['Date'].min())]
    and [pd.to_datetime(df['Date'].max())], done by library code that may
    raise. *)
Variable xlsx_writer : DataFrame -> result string.
Variable tmp_stem : string.
Variable read_fails : bool.
Variable b64encode : string -> string.
Variable date_input_defaults : DataFrame -> result unit.

(** [with tempfile.NamedTemporaryFile(delete=..., suffix=...) as tmp: body]:
    the file is created empty, [body] runs with its name, and when the
    block is left, normally or by an exception, the file is closed and,
    only if [delete] is set, removed. *)
Definition with_NamedTemporaryFile {A : Type} (delete : bool)
    (suffix : string) (body : string -> IO A) : IO A :=
  fun w =>
    let name := (tmp_stem ++ suffix)%string in
    let (w', r) := body name (set_files (fs_write name "" (files w)) w) in
    ((if delete then set_files (fs_remove name (files w')) w' else w'), r).

(** [df.to_excel(path, index=False)] *)
Definition to_excel (df : DataFrame) (path : string) : IO unit :=
  fun w =>
    match xlsx_writer df with
    | inl e => (w, inl e)
    | inr data => (set_files (fs_write path data (files w)) w, inr tt)
    end.

(** [with open(path, 'rb') as f: f.read()] *)
Definition read_binary (path : string) : IO string :=
  fun w =>
    match fs_lookup path (files w) with
    | None => (w, inl (OSError path))
    | Some data => if read_fails then (w, inl (OSError path))
                   else (w, inr data)
    end.

(** [os.unlink(path)] *)
Definition os_unlink (path : string) : IO unit :=
  fun w =>
    if fs_exists path (files w)
    then (set_files (fs_remove path (files w)) w, inr tt)
    else (w, inl (OSError path)).

Definition create_excel_download_link (df : DataFrame) : IO string :=
  with_NamedTemporaryFile false ".xlsx" (fun tmp_name =>
    _ <~ to_excel df tmp_name ;;
    excel_data <~ read_binary tmp_name ;;
    _ <~ os_unlink tmp_name ;;
    let b64 := b64encode excel_data in
    io_ret
      ("data:application/vnd.openxmlformats-officedocument.spreadsheetml.sheet;base64,"
         ++ b64)%string).

(** [main].  [reply] is [None] while no file has been uploaded and
    otherwise the text [process_pdf] returned for the uploaded file; [u] is
    what the user has chosen in the widgets.  An exception leaves [main] at
    the statement that raises it: what was put on the page before stays,
    nothing of what follows is put on it. *)
Definition main (reply : option string) (u : UserInput) : IO unit :=
  _ <~ show (Title "Bank Statement Data Extractor") ;;
  _ <~ show (Text "Upload your bank statement PDF to extract transaction data") ;;
  _ <~ show (FileUploader "Choose a PDF file") ;;
  match reply with
  | None => io_ret tt
  | Some response =>
      _ <~ show (Spinner "Processing PDF...") ;;
      df <~ io_lift (extract_table_from_response response) ;;
      (* with tab1 *)
      _ <~ show (Text "Transaction Data Preview") ;;
      _ <~ show (Text "Filter Data:") ;;
      _ <~ show (Multiselect "Filter by Type" (unique (map Type_ df))) ;;
      _ <~ io_lift (date_input_defaults df) ;;
      _ <~ show (DateInput "Select Date Range") ;;
      (* Apply filters *)
      let df_filtered := df_filtered df u in
      _ <~ show (Table df_filtered) ;;
      _ <~ show (Button "Preview Excel Format") ;;
      _ <~ (if preview_clicked u then
              _ <~ show (Text "Excel Preview:") ;;
              show (Table df_filtered)
            else io_ret tt) ;;
      excel_link <~ create_excel_download_link df_filtered ;;
      _ <~ show (DownloadLink excel_link) ;;
      (* with tab2 *)
      _ <~ show (Text "Summary Analysis") ;;
      _ <~ show (Metric "Total Income" (total_income df)) ;;
      _ <~ show (Metric "Total Expenses" (total_expenses df)) ;;
      _ <~ show (Metric "Balance" (balance df)) ;;
      _ <~ show (Text "Transaction Distribution") ;;
      show (BarChart (map Type_ df))
  end.

End ExcelExport.


(* ================================================================== *)
(** ** Replies and statements used below *)
(* ================================================================== *)

(** The header row the prompt asks for. *)
Definition header_line : string := "| Date | Concept | Amount (MXN) | Type |".

(** The separator row of a text table. *)
Definition separator_line : string := "|---|---|---|---|".

(** The data row of the specification's worked example. *)
Definition rent_line : string :=
  "| 2024-11-01 | RENTA DEPTO CHAPULTEPEC | 12,345.00 | Expense |".

(** 12345.0 and 1234.5 as binary64 numbers. *)
Definition f64_12345 : PyFloat.float :=
  S754_finite false (12345 * 2 ^ 39) (-39).
Definition f64_1234_5 : PyFloat.float :=
  S754_finite false (2469 * 2 ^ 41) (-42).

Definition rent_record : TransactionRecord :=
  {| Date := "2024-11-01"; Concept := "RENTA DEPTO CHAPULTEPEC";
     Amount_MXN := f64_12345; Type_ := "Expense" |}.

(** The reading of the specification under which every line after the
    header marker that has the delimiter and splits into four non-empty
    cells gives a record with those cells.  Only the least is asked of the
    result: that it is a record set and holds some record with the first,
    second and fourth cell, whatever its amount and however often. *)
Definition every_four_cell_line_recorded : Prop :=
  forall response pre line post d c a t,
    PyStr.split LF response = pre ++ line :: post ->
    existsb is_header pre = true ->
    is_candidate line = true ->
    row_of_line line = [d; c; a; t] ->
    exists df x,
      extract_table_from_response response = inr df /\
      In (mk_TransactionRecord d c x t) df.

(** A data row whose amount is not a number. *)
Definition pending_line : string := "| 2024-11-03 | COMISION | n/a | Expense |".

(** A data row whose concept has the word of the header in it. *)
Definition date_night_line : string :=
  "| 2024-11-02 | Date night | 50.00 | Expense |".

(** Prose with three pipes in it, as a model may write before the table. *)
Definition preamble_line : string := "page | rows | 3 | ok".

(** A selection in the widgets: the category of the rent row, and the
    month of January 2025 as date range. *)
Definition january_2025 : date * date :=
  (mk_date 2025 1 1, mk_date 2025 1 31).

Definition expense_in_january_2025 : UserInput :=
  {| selected_types := ["Expense"]; date_range := january_2025;
     preview_clicked := false |}.

(** A spreadsheet writer that fails, as [to_excel] does when the disk is
    full or no engine for the format is installed. *)
Definition failing_writer (df : DataFrame) : result string :=
  raise (OSError "No space left on device").

(** A spreadsheet writer whose output lists the dates of the rows it is
    given, to see in the link which rows were exported. *)
Definition dates_writer (df : DataFrame) : result string :=
  ret (PyStr.join "," (map Date df)).

(** The date widget raising for no frame. *)
Definition date_input_ok (df : DataFrame) : result unit := ret tt.

(** What is on the page when the reply is handed to the parser. *)
Definition page_before_parsing : list Element :=
  [ Title "Bank Statement Data Extractor";
    Text "Upload your bank statement PDF to extract transaction data";
    FileUploader "Choose a PDF file";
    Spinner "Processing PDF..." ].

(** The page for the reply made of the header row and the rent row, with
    the category of the rent row selected. *)
Definition rent_page : list Element :=
  page_before_parsing ++
  [ Text "Transaction Data Preview";
    Text "Filter Data:";
    Multiselect "Filter by Type" ["Expense"];
    DateInput "Select Date Range";
    Table [rent_record];
    Button "Preview Excel Format";
    DownloadLink
      "data:application/vnd.openxmlformats-officedocument.spreadsheetml.sheet;base64,2024-11-01";
    Text "Summary Analysis";
    Metric "Total Income" PyFloat.zero;
    Metric "Total Expenses" f64_12345;
    Metric "Balance" (SFopp f64_12345);
    Text "Transaction Distribution";
    BarChart ["Expense"] ].

Definition empty_world : World := {| files := []; screen := [] |}.

(** A reply with no table in it. *)
Definition no_table_reply : string :=
  PyStr.join LF ["I could not read any transaction."; "Please try again."].

(* ================================================================== *)
(** ** The parser described without its loop *)
(* ================================================================== *)

(** The test the loop applies to a line once parsing is on. *)
Definition keptb (line : string) : bool :=
  is_candidate line && negb (PyStr.contains "Date" line) &&
  PyStr.truthy (PyStr.strip_chars "|- " line) &&
  Nat.eqb (List.length (row_of_line line)) 4.

(** The lines that follow the first header row. *)
Fixpoint after_header (lines : list string) : list string :=
  match lines with
  | [] => []
  | l :: rest => if is_header l then rest else after_header rest
  end.

(** One character as a string. *)
Definition char (c : ascii) : string := String c EmptyString.

(** The carriage return. *)
Definition CR : ascii := "013"%char.

(* ================================================================== *)
(** ** The two tabs of the page *)
(* ================================================================== *)

(** What the first tab holds once the filtered frame is shown, before the
    download link. *)
Definition filter_tab (df : DataFrame) (u : UserInput) : list Element :=
  [ Text "Transaction Data Preview";
    Text "Filter Data:";
    Multiselect "Filter by Type" (unique (map Type_ df));
    DateInput "Select Date Range";
    Table (df_filtered df u);
    Button "Preview Excel Format" ] ++
  (if preview_clicked u
   then [Text "Excel Preview:"; Table (df_filtered df u)]
   else []).

(** What the second tab holds. *)
Definition summary_tab (df : DataFrame) : list Element :=
  [ Text "Summary Analysis";
    Metric "Total Income" (total_income df);
    Metric "Total Expenses" (total_expenses df);
    Metric "Balance" (balance df);
    Text "Transaction Distribution";
    BarChart (map Type_ df) ].

(** The start of every link the export returns. *)
Definition data_uri_prefix : string :=
  "data:application/vnd.openxmlformats-officedocument.spreadsheetml.sheet;base64,".

(* ================================================================== *)
(** ** From the PDF to the reply: [convert_pdf_to_images], [init_client]
       and [process_pdf] *)
(* ================================================================== *)

(** The exceptions on the way to the reply: those raised inside the PDF
    library or by the service, [IndexError] and [KeyError]. *)
Inductive PipelineError : Type :=
| LibraryError (message : string)
| IndexError
| KeyError (key : string).

Definition outcome (A : Type) : Type := (PipelineError + A)%type.

Definition obind {A B : Type} (m : outcome A) (k : A -> outcome B)
  : outcome B :=
  match m with
  | inl e => inl e
  | inr a => k a
  end.

Notation "x <<- m ;; k" := (obind m (fun x => k))
  (at level 61, m at next level, right associativity).

(** One block of the content of a message. *)
Inductive ContentBlock : Type :=
| TextBlock (text : string)
| ImageBlock (source_type media_type data : string).

(** The keyword arguments of [client.messages.create]. *)
Record Request : Type := mk_Request {
  model : string;
  max_tokens : Z;
  temperature : Z;
  system : string;
  messages : list (string * list ContentBlock)   (* role, content *)
}.

(** The double quote, which stands twice in the prompt. *)
Definition double_quote : string := String (ascii_of_nat 34) EmptyString.

(** The instruction text of [process_pdf]. *)
Definition prompt : string :=
  ("
    I'll give you the full bank statement as images with the information, you will have to read from page 3 to the last-2, in this case from 3 to 6  (in this case: 8-2 = 6) to extract the information to give me back a table with the following information:

Date, Concept (only the text after the word " ++ double_quote ++ "CONCEPTO" ++ double_quote ++ ") and Amount (MXN), Type.

Example, in the description: PAGO TRANSFERENCIA SPEI HORA 09:44:38
ENVIADO A AZTECA
A LA CUENTA 127180001128564631
AL CLIENTE ANDRES CAZAREZ DIAZ (1)
(1) DATO NO VERIFICADO POR ESTA INSTITUCION
CLAVE DE RASTREO 2024110140014BMOV0000476736050
REF 3903381
CONCEPTO RENTA DEPTO CHAPULTEPEC

you will give as Concept only: RENTA DEPTO CHAPULTEPEC

The name type that refers if is income or expense

Return the data ONLY in a table format with columns:
| Date | Concept | Amount (MXN) | Type |
")%string.

Section PdfPipeline.

(** The collaborators: the pages [fitz.open] finds in the bytes of a
    document (or the exception it raises), the PNG bytes of a page
    ([page.get_pixmap().tobytes("png")]), the secrets of the application,
    [base64.b64encode], and the service, which answers a request made with
    a key by the texts of the blocks of its message. *)
Variable PdfPage : Type.
Variable fitz_open : string -> outcome (list PdfPage).
Variable page_png : PdfPage -> outcome string.
Variable secrets : string -> option string.
Variable b64encode : string -> string.
Variable messages_create : string -> Request -> outcome (list string).

(** [for page_num in range(len(doc)): ... images.append(img_bytes)] *)
Fixpoint pages_loop (doc : list PdfPage) (page_nums : list nat)
    (images : list string) : outcome (list string) :=
  match page_nums with
  | [] => inr images
  | page_num :: rest =>
      match nth_error doc page_num with
      | None => inl IndexError
      | Some page =>
          img_bytes <<- page_png page ;;
          pages_loop doc rest (images ++ [img_bytes])
      end
  end.

Definition convert_pdf_to_images (pdf_content : string)
  : outcome (list string) :=
  doc <<- fitz_open pdf_content ;;
  pages_loop doc (seq 0 (List.length doc)) [].

(** [init_client]: the client is known by its key. *)
Definition init_client : outcome string :=
  match secrets "ANTHROPIC_API_KEY" with
  | Some api_key => inr api_key
  | None => inl (KeyError "ANTHROPIC_API_KEY")
  end.

Definition image_block (img_base64 : string) : ContentBlock :=
  ImageBlock "base64" "image/png" img_base64.

(** [content = [text block]; for img_base64 in base64_images:
    content.append(image block)] *)
Definition build_content (base64_images : list string) : list ContentBlock :=
  fold_left (fun content img_base64 => content ++ [image_block img_base64])
            base64_images [TextBlock prompt].

(** [process_pdf]; [message.content[0].text] raises [IndexError] when the
    message has no block. *)
Definition process_pdf (pdf_content : string) : outcome string :=
  client <<- init_client ;;
  images <<- convert_pdf_to_images pdf_content ;;
  let base64_images := map b64encode images in
  let content := build_content base64_images in
  message <<- messages_create client
                {| model := "claude-3-5-sonnet-20241022";
                   max_tokens := 4000;
                   temperature := 0;
                   system := "You are a PDF bank statement analyzer.";
                   messages := [("user", content)] |} ;;
  match message with
  | [] => inl IndexError
  | first :: _ => inr first
  end.

End PdfPipeline.

(** The request [process_pdf] makes for the PNG images of the pages. *)
Definition request_for (b64encode : string -> string) (images : list string)
  : Request :=
  {| model := "claude-3-5-sonnet-20241022";
     max_tokens := 4000;
     temperature := 0;
     system := "You are a PDF bank statement analyzer.";
     messages :=
       [("user",
         TextBlock prompt ::
         map (fun img => ImageBlock "base64" "image/png" (b64encode img))
             images)] |}.

(* ================================================================== *)
(** ** Facts about the string primitives *)
(* ================================================================== *)

Section StripFacts.
Variable drop : ascii -> bool.

Lemma lstrip_by_head (s : string) :
  PyStr.lstrip_by drop s = EmptyString \/
  exists c r, PyStr.lstrip_by drop s = String c r /\ drop c = false.
Proof.
  induction s as [|c s IH]; simpl.
  - now left.
  - destruct (drop c) eqn:D; [exact IH|].
    right. now exists c, s.
Qed.

Lemma rstrip_by_keeps_head (c : ascii) (s : string) :
  drop c = false -> exists r, PyStr.rstrip_by drop (String c s) = String c r.
Proof.
  intros D. simpl. destruct (PyStr.rstrip_by drop s) as [|c' r].
  - rewrite D. now exists EmptyString.
  - now exists (String c' r).
Qed.

Lemma rstrip_by_idem (s : string) :
  PyStr.rstrip_by drop (PyStr.rstrip_by drop s) = PyStr.rstrip_by drop s.
Proof.
  induction s as [|c s IH]; [reflexivity|].
  simpl. destruct (PyStr.rstrip_by drop s) as [|c' r] eqn:E.
  - destruct (drop c) eqn:D; [reflexivity|]. simpl. now rewrite D.
  - change (PyStr.rstrip_by drop (String c (String c' r)))
      with (match PyStr.rstrip_by drop (String c' r) with
            | EmptyString =>
                if drop c then EmptyString else String c EmptyString
            | r0 => String c r0
            end).
    now rewrite IH.
Qed.

Lemma strip_by_idem (s : string) :
  PyStr.strip_by drop (PyStr.strip_by drop s) = PyStr.strip_by drop s.
Proof.
  unfold PyStr.strip_by.
  destruct (lstrip_by_head s) as [E | (c & r & E & D)]; rewrite E.
  - reflexivity.
  - destruct (rstrip_by_keeps_head c r D) as [r' E']. rewrite E'.
    simpl PyStr.lstrip_by. rewrite D, <- E'. apply rstrip_by_idem.
Qed.
End StripFacts.

Lemma strip_idem (s : string) : PyStr.strip (PyStr.strip s) = PyStr.strip s.
Proof. apply strip_by_idem. Qed.

Lemma truthy_nonempty (s : string) :
  PyStr.truthy s = true <-> s <> EmptyString.
Proof.
  destruct s; simpl; split; try congruence; intros H; now try discriminate.
Qed.

Lemma mem_remove_char (c : ascii) (s : string) :
  PyStr.mem c (PyStr.remove_char c s) = false.
Proof.
  induction s as [|d s IH]; [reflexivity|].
  simpl. destruct (Ascii.eqb d c) eqn:E; [exact IH|].
  simpl. rewrite Ascii.eqb_sym, E. exact IH.
Qed.

Lemma remove_char_absent (c : ascii) (s : string) :
  PyStr.mem c s = false -> PyStr.remove_char c s = s.
Proof.
  induction s as [|d s IH]; [reflexivity|].
  simpl. rewrite (Ascii.eqb_sym c d).
  destruct (Ascii.eqb d c); simpl; [discriminate|].
  intros H. now rewrite IH.
Qed.

Lemma remove_char_idem (c : ascii) (s : string) :
  PyStr.remove_char c (PyStr.remove_char c s) = PyStr.remove_char c s.
Proof. apply remove_char_absent, mem_remove_char. Qed.

(** ['c' in s] for a single character is membership. *)
Lemma contains_char (c : ascii) (s : string) :
  PyStr.contains (String c EmptyString) s = PyStr.mem c s.
Proof.
  induction s as [|d s IH]; [reflexivity|].
  simpl. rewrite IH. rewrite (Ascii.eqb_sym c d).
  destruct (Ascii.eqb d c); simpl; [reflexivity|].
  reflexivity.
Qed.

(* ================================================================== *)
(** ** Facts about the loop *)
(* ================================================================== *)

Lemma run_loop_app (l1 l2 : list string) (st : loop_state) :
  run_loop (l1 ++ l2) st = run_loop l2 (run_loop l1 st).
Proof. apply fold_left_app. Qed.

(** The loop reads [table_data] only to append to it. *)
Lemma loop_body_frame (st : loop_state) (line : string) :
  loop_body st line =
  let st' := loop_body (mk_loop_state [] (start_parsing st)) line in
  {| table_data := table_data st ++ table_data st';
     start_parsing := start_parsing st' |}.
Proof.
  destruct st as [rows sp]. unfold loop_body. simpl.
  repeat match goal with
         | |- context [if ?b then _ else _] => destruct b; simpl
         end;
    now rewrite ?app_nil_r.
Qed.

Lemma run_loop_frame (lines : list string) (st : loop_state) :
  run_loop lines st =
  let st' := run_loop lines (mk_loop_state [] (start_parsing st)) in
  {| table_data := table_data st ++ table_data st';
     start_parsing := start_parsing st' |}.
Proof.
  revert st. induction lines as [|line lines IH]; intros st.
  - destruct st. simpl. now rewrite app_nil_r.
  - unfold run_loop in *. simpl fold_left.
    rewrite (IH (loop_body st line)).
    rewrite (IH (loop_body (mk_loop_state [] (start_parsing st)) line)).
    rewrite (loop_body_frame st line). simpl.
    now rewrite app_assoc.
Qed.

(** A header row keeps no row and switches parsing on. *)
Lemma loop_body_header (st : loop_state) (line : string) :
  is_header line = true ->
  loop_body st line = mk_loop_state (table_data st) true.
Proof.
  unfold is_header, is_candidate, loop_body. intros H.
  apply andb_true_iff in H as [-> ->]. reflexivity.
Qed.

(** Before any header row, a line that is no header row changes nothing. *)
Lemma loop_body_not_started (st : loop_state) (line : string) :
  start_parsing st = false -> is_header line = false ->
  loop_body st line = st.
Proof.
  unfold is_header, is_candidate, loop_body. intros Hs H.
  destruct (PyStr.contains "|" line); [|reflexivity].
  simpl in H. rewrite H, Hs. reflexivity.
Qed.

Lemma run_loop_no_header (pre : list string) (st : loop_state) :
  start_parsing st = false ->
  (forall l, In l pre -> is_header l = false) ->
  run_loop pre st = st.
Proof.
  intros Hs. induction pre as [|l pre IH]; intros H; [reflexivity|].
  unfold run_loop in *. simpl.
  rewrite loop_body_not_started; auto using in_eq.
  apply IH. intros l' Hl'. apply H. now right.
Qed.

Lemma loop_body_start_parsing_mono (st : loop_state) (line : string) :
  start_parsing st = true -> start_parsing (loop_body st line) = true.
Proof.
  intros Hs. unfold loop_body.
  repeat match goal with
         | |- context [if ?b then _ else _] => destruct b; simpl
         end; auto.
Qed.

Lemma run_loop_start_parsing_mono (lines : list string) (st : loop_state) :
  start_parsing st = true -> start_parsing (run_loop lines st) = true.
Proof.
  revert st. induction lines as [|l lines IH]; intros st Hs; [exact Hs|].
  apply IH. now apply loop_body_start_parsing_mono.
Qed.

(** After a header row, parsing is on. *)
Lemma run_loop_header_seen (pre : list string) (st : loop_state) :
  existsb is_header pre = true -> start_parsing (run_loop pre st) = true.
Proof.
  revert st. induction pre as [|l pre IH]; intros st H; [discriminate|].
  simpl in H. unfold run_loop. simpl fold_left.
  destruct (is_header l) eqn:E.
  - apply run_loop_start_parsing_mono.
    now rewrite loop_body_header.
  - now apply IH.
Qed.

(** Once parsing is on, a line is kept only if it is a candidate without
    ['Date'], is not made of pipes, dashes and blanks only, and has four
    cells; any other line leaves the state as it is. *)
Lemma loop_body_started_dropped (st : loop_state) (line : string) :
  start_parsing st = true ->
  is_candidate line = false \/ PyStr.contains "Date" line = true \/
  PyStr.strip_chars "|- " line = EmptyString \/
  List.length (row_of_line line) <> 4 ->
  loop_body st line = st.
Proof.
  destruct st as [rows sp]. simpl. intros ->. unfold is_candidate, loop_body.
  simpl. intros H.
  destruct (PyStr.contains "|" line); [|reflexivity].
  destruct (PyStr.contains "Date" line); [reflexivity|].
  destruct (PyStr.strip_chars "|- " line) eqn:Es; [reflexivity|]. simpl.
  destruct (Nat.eqb_spec (List.length (row_of_line line)) 4) as [E|E];
    [|reflexivity].
  exfalso. destruct H as [H | [H | [H | H]]]; try discriminate. now apply H.
Qed.

Lemma loop_body_started_kept (st : loop_state) (line : string) :
  start_parsing st = true ->
  is_candidate line = true -> PyStr.contains "Date" line = false ->
  PyStr.strip_chars "|- " line <> EmptyString ->
  List.length (row_of_line line) = 4 ->
  loop_body st line = mk_loop_state (table_data st ++ [row_of_line line]) true.
Proof.
  unfold is_candidate, loop_body. intros -> -> -> Hs ->.
  apply truthy_nonempty in Hs. rewrite Hs. reflexivity.
Qed.

Lemma loop_body_rows (st : loop_state) (line : string) (row : list string) :
  In row (table_data (loop_body st line)) ->
  In row (table_data st) \/
  (start_parsing st = true /\ kept_line line /\ row = row_of_line line).
Proof.
  unfold loop_body, kept_line, is_candidate.
  destruct (PyStr.contains "|" line); [|now left].
  destruct (PyStr.contains "Date" line); [now left|].
  destruct (start_parsing st); [|now left]. simpl.
  destruct (PyStr.truthy (PyStr.strip_chars "|- " line)) eqn:Es; [|now left].
  destruct (Nat.eqb_spec (List.length (row_of_line line)) 4) as [E|E];
    [|now left].
  simpl. rewrite in_app_iff. intros [H | [H | []]]; [now left|].
  right. apply truthy_nonempty in Es. now subst.
Qed.

Lemma run_loop_rows (lines : list string) (st : loop_state)
    (row : list string) :
  In row (table_data (run_loop lines st)) ->
  In row (table_data st) \/
  exists line, In line lines /\ kept_line line /\ row = row_of_line line.
Proof.
  revert st. induction lines as [|l lines IH]; intros st H; [now left|].
  apply IH in H as [H | (line & Hin & Hk & ->)].
  - apply loop_body_rows in H as [H | (_ & Hk & ->)]; [now left|].
    right. exists l. auto using in_eq.
  - right. exists line. auto using in_cons.
Qed.

(** The cells of a row are trimmed and not empty. *)
Lemma row_of_line_cells (line cell : string) :
  In cell (row_of_line line) ->
  cell <> EmptyString /\ PyStr.strip cell = cell.
Proof.
  unfold row_of_line. rewrite in_map_iff. intros (x & <- & Hx).
  apply filter_In in Hx as [_ Hx]. split.
  - now apply truthy_nonempty.
  - apply strip_idem.
Qed.

Lemma table_data_rows (lines : list string) (row : list string) :
  In row (table_data (run_loop lines loop_init)) ->
  List.length row = 4 /\
  (forall cell, In cell row ->
                cell <> EmptyString /\ PyStr.strip cell = cell) /\
  exists line, In line lines /\ kept_line line /\ row = row_of_line line.
Proof.
  intros H. apply run_loop_rows in H as [[] | (line & Hin & Hk & ->)].
  split; [apply Hk|]. split; [apply row_of_line_cells|].
  now exists line.
Qed.

(* ================================================================== *)
(** ** Facts about [traverse] and the construction of the frame *)
(* ================================================================== *)

Section TraverseFacts.
Context {A B : Type} (f : A -> result B).

Lemma traverse_app (l1 l2 : list A) :
  traverse f (l1 ++ l2) =
  (b1 <- traverse f l1 ;; b2 <- traverse f l2 ;; ret (b1 ++ b2)).
Proof.
  induction l1 as [|a l1 IH]; simpl.
  - destruct (traverse f l2); reflexivity.
  - destruct (f a); simpl; [reflexivity|]. rewrite IH.
    destruct (traverse f l1); simpl; [reflexivity|].
    destruct (traverse f l2); reflexivity.
Qed.

Lemma traverse_raises_iff (l : list A) :
  (exists e, traverse f l = inl e) <->
  (exists a e, In a l /\ f a = inl e).
Proof.
  induction l as [|a l IH]; simpl.
  - split; [intros [e H]; discriminate | intros (a & e & [] & _)].
  - destruct (f a) as [e|b] eqn:E; simpl.
    + split; [|now exists e]. intros _. exists a, e. auto.
    + destruct (traverse f l) as [e|bs]; simpl.
      * split; [|now exists e]. intros _.
        destruct (proj1 IH) as (a' & e' & Hin & Ha'); [now exists e|].
        exists a', e'. auto.
      * split; [intros [e H]; discriminate|].
        intros (a' & e' & [<- | Hin] & Ha'); [congruence|].
        destruct (proj2 IH) as [e H]; [now exists a', e' | discriminate].
Qed.

Lemma traverse_returns (l : list A) (bs : list B) :
  traverse f l = inr bs -> Forall2 (fun a b => f a = inr b) l bs.
Proof.
  revert bs. induction l as [|a l IH]; simpl; intros bs H.
  - injection H as <-. constructor.
  - destruct (f a) as [e|b] eqn:E; simpl in H; [discriminate|].
    destruct (traverse f l) as [e|bs']; simpl in H; [discriminate|].
    injection H as <-. constructor; auto.
Qed.

Lemma traverse_app_returns (l1 l2 : list A) (bs : list B) :
  traverse f (l1 ++ l2) = inr bs ->
  exists b1 b2, bs = b1 ++ b2 /\
                traverse f l1 = inr b1 /\ traverse f l2 = inr b2.
Proof.
  rewrite traverse_app.
  destruct (traverse f l1) as [e|b1]; simpl; [discriminate|].
  destruct (traverse f l2) as [e|b2]; simpl; [discriminate|].
  intros H. injection H as <-. now exists b1, b2.
Qed.
End TraverseFacts.

Lemma traverse_compose {A B C : Type} (f : A -> result B)
    (g : B -> result C) (l : list A) :
  (forall a, In a l -> exists b, f a = inr b) ->
  (bs <- traverse f l ;; traverse g bs) =
  traverse (fun a => b <- f a ;; g b) l.
Proof.
  induction l as [|a l IH]; intros H; [reflexivity|].
  simpl. destruct (H a (in_eq _ _)) as [b E]. rewrite E. simpl.
  rewrite <- IH by (intros; apply H; now right).
  destruct (traverse f l) as [e|bs] eqn:El; simpl; [|reflexivity].
  exfalso.
  destruct (proj1 (traverse_raises_iff f l)) as (a' & e' & Hin & Ha');
    [now exists e|].
  destruct (H a' (in_cons _ _ _ Hin)) as [b' Hb']. congruence.
Qed.

Lemma text_row_four (row : list string) :
  List.length row = 4 -> exists r, text_row row = inr r.
Proof.
  destruct row as [|d [|c [|a [|t [|x row]]]]]; try discriminate.
  intros _. now eexists.
Qed.

(** The constructor of the frame never raises on the rows the loop kept. *)
Lemma pd_DataFrame_table_data (lines : list string) :
  exists frame,
    pd_DataFrame (table_data (run_loop lines loop_init)) = inr frame.
Proof.
  destruct (pd_DataFrame (table_data (run_loop lines loop_init)))
    as [e|frame] eqn:E; [|now exists frame].
  exfalso.
  destruct (proj1 (traverse_raises_iff
                     text_row (table_data (run_loop lines loop_init))))
    as (row & e' & Hin & Hr); [now exists e|].
  apply table_data_rows in Hin as [Hlen _].
  destruct (text_row_four row Hlen) as [r Hr']. congruence.
Qed.

(** The function, row by row. *)
Lemma extract_from_lines_rows (lines : list string) :
  extract_from_lines lines =
  traverse record_of_row (table_data (run_loop lines loop_init)).
Proof.
  unfold extract_from_lines, pd_DataFrame, convert_amounts, record_of_row.
  apply traverse_compose. intros row Hin.
  apply table_data_rows in Hin as [Hlen _]. now apply text_row_four.
Qed.

Lemma traverse_raises_first {A B : Type} (f : A -> result B) (l : list A)
    (e : exn) :
  traverse f l = inl e -> exists a, In a l /\ f a = inl e.
Proof.
  induction l as [|a l IH]; simpl; [discriminate|].
  destruct (f a) as [e'|b] eqn:E; simpl.
  - intros H. injection H as <-. exists a. auto.
  - destruct (traverse f l) as [e'|bs]; simpl; [|discriminate].
    intros H. injection H as <-.
    destruct IH as (a' & Hin & Ha'); [reflexivity|]. exists a'. auto.
Qed.

Lemma Forall2_In_r {A B : Type} (R : A -> B -> Prop) (l : list A)
    (bs : list B) (b : B) :
  Forall2 R l bs -> In b bs -> exists a, In a l /\ R a b.
Proof.
  induction 1 as [|a b' l bs HR _ IH]; simpl; [intros []|].
  intros [<- | Hin].
  - exists a. auto.
  - destruct (IH Hin) as (a' & Ha' & HR'). exists a'. auto.
Qed.

(** What [record_of_row] does on a row of four cells. *)
Lemma record_of_row_returns (row : list string) (r : TransactionRecord) :
  record_of_row row = inr r ->
  exists a, row = [Date r; Concept r; a; Type_ r] /\
            parse_amount a = inr (Amount_MXN r).
Proof.
  destruct row as [|d [|c [|a [|t [|x row]]]]]; try discriminate.
  unfold record_of_row, convert_row. simpl.
  destruct (parse_amount a) as [e|x] eqn:E; simpl; [discriminate|].
  intros H. injection H as <-. exists a. simpl. auto.
Qed.

Lemma record_of_row_raises (row : list string) (e : exn) :
  List.length row = 4 -> record_of_row row = inl e ->
  exists a, nth_error row 2 = Some a /\
            PyFloat.python_float (remove_commas a) = None /\
            e = ValueError (remove_commas a).
Proof.
  destruct row as [|d [|c [|a [|t [|x row]]]]]; try discriminate.
  intros _. unfold record_of_row, convert_row, parse_amount, to_float. simpl.
  destruct (PyFloat.python_float (remove_commas a)) eqn:E; simpl;
    [discriminate|].
  intros H. injection H as <-. now exists a.
Qed.

Lemma record_of_row_not_numeric (row : list string) (a : string) :
  List.length row = 4 -> nth_error row 2 = Some a ->
  PyFloat.python_float (remove_commas a) = None ->
  record_of_row row = inl (ValueError (remove_commas a)).
Proof.
  destruct row as [|d [|c [|a' [|t [|x row]]]]]; try discriminate.
  intros _ H. injection H as <-.
  unfold record_of_row, convert_row, parse_amount, to_float. simpl.
  now intros ->.
Qed.

(** The rows kept from [pre ++ line :: post] when [line] comes after a
    header row: those of [pre], what [line] adds, those of [post]. *)
Lemma table_data_after_header (pre post : list string) (line : string) :
  existsb is_header pre = true ->
  let st := run_loop pre loop_init in
  table_data (run_loop (pre ++ line :: post) loop_init) =
  table_data (loop_body st line) ++ table_data (run_loop post loop_started)
  /\
  table_data (run_loop (pre ++ post) loop_init) =
  table_data st ++ table_data (run_loop post loop_started).
Proof.
  intros Hh st.
  assert (Hs : start_parsing st = true) by now apply run_loop_header_seen.
  split.
  - rewrite run_loop_app. change (run_loop (line :: post) _)
      with (run_loop post (loop_body st line)).
    rewrite run_loop_frame. simpl.
    now rewrite loop_body_start_parsing_mono.
  - rewrite run_loop_app. fold st. rewrite run_loop_frame. simpl.
    now rewrite Hs.
Qed.

(* ================================================================== *)
(** ** Rows of four cells after the header *)
(* ================================================================== *)

(** C1, as stated, fails: after the header row, the separator row
    [|---|---|---|---|] has the delimiter and splits into exactly four
    non-empty cells, yet the parser returns no record at all. *)
Lemma separator_line_refutes_every_four_cell_line_recorded :
  ~ every_four_cell_line_recorded.
Proof.
  intros H.
  destruct (H (PyStr.join LF [header_line; separator_line])
              [header_line] separator_line [] "---" "---" "---" "---"
              eq_refl eq_refl eq_refl eq_refl) as (df & x & E & Hin).
  vm_compute in E. injection E as <-. exact Hin.
Qed.

(** C1, amended: a line after the header marker that has the delimiter,
    does not contain ["Date"], is not empty once pipes, dashes and blanks
    are stripped from its ends, and splits into exactly four non-empty
    trimmed cells adds exactly one row, made of these cells, to the kept
    rows; and whenever the parser returns a record set, that set holds, at
    the place of the line, exactly one record whose date, concept and
    category are the first, second and fourth cell and whose amount is the
    float parsed from the third cell with its commas removed: without the
    line the result is the same set less this one record. *)
Theorem kept_line_yields_one_record
    (response : string) (pre post : list string) (line d c a t : string) :
  PyStr.split LF response = pre ++ line :: post ->
  existsb is_header pre = true ->
  is_candidate line = true ->
  PyStr.contains "Date" line = false ->
  PyStr.strip_chars "|- " line <> EmptyString ->
  row_of_line line = [d; c; a; t] ->
  (table_data (run_loop (pre ++ line :: post) loop_init) =
     table_data (run_loop pre loop_init) ++
     [d; c; a; t] :: table_data (run_loop post loop_started) /\
   table_data (run_loop (pre ++ post) loop_init) =
     table_data (run_loop pre loop_init) ++
     table_data (run_loop post loop_started)) /\
  forall df, extract_table_from_response response = inr df ->
    exists before x after,
      df = before ++ mk_TransactionRecord d c x t :: after /\
      parse_amount a = inr x /\
      extract_from_lines pre = inr before /\
      extract_from_lines (pre ++ post) = inr (before ++ after).
Proof.
  intros Hsplit Hh Hc Hd Hs Hrow.
  destruct (table_data_after_header pre post line Hh) as [E1 E2].
  rewrite loop_body_started_kept in E1;
    auto using run_loop_header_seen; [|now rewrite Hrow].
  simpl in E1. rewrite Hrow, <- app_assoc in E1. simpl in E1.
  split; [now split|].
  intros df Hdf. unfold extract_table_from_response in Hdf.
  rewrite Hsplit, extract_from_lines_rows, E1 in Hdf.
  apply traverse_app_returns in Hdf as (before & rest & -> & Hb & Hr).
  simpl in Hr.
  destruct (record_of_row [d; c; a; t]) as [e|r] eqn:Er; simpl in Hr;
    [discriminate|].
  destruct (traverse record_of_row (table_data (run_loop post loop_started)))
    as [e|after] eqn:Ea; simpl in Hr; [discriminate|].
  injection Hr as <-.
  apply record_of_row_returns in Er as (a' & Ea' & Hx).
  injection Ea' as -> -> <- ->.
  exists before, (Amount_MXN r), after. destruct r as [d' c' x t']. simpl in *.
  repeat split; auto.
  - now rewrite extract_from_lines_rows.
  - rewrite extract_from_lines_rows, E2, traverse_app, Hb, Ea. reflexivity.
Qed.

(** The worked example of the specification: the header row followed by
    the rent row gives the one record of the rent. *)
Lemma kept_line_yields_one_record_witness :
  exists before x after,
    [rent_record] =
      before ++ mk_TransactionRecord "2024-11-01" "RENTA DEPTO CHAPULTEPEC"
                                     x "Expense" :: after /\
    parse_amount "12,345.00" = inr x /\
    extract_from_lines [header_line] = inr before /\
    extract_from_lines ([header_line] ++ []) = inr (before ++ after).
Proof.
  apply (proj2 (kept_line_yields_one_record
                  (PyStr.join LF [header_line; rent_line])
                  [header_line] [] rent_line
                  "2024-11-01" "RENTA DEPTO CHAPULTEPEC" "12,345.00" "Expense"
                  eq_refl eq_refl eq_refl eq_refl
                  ltac:(discriminate) eq_refl)).
  vm_compute. reflexivity.
Defined.

(* ================================================================== *)
(** ** Failure of the amount conversion *)
(* ================================================================== *)

(** C3: the parser raises if and only if some kept row of four cells has
    an amount cell that [float] refuses once its commas are removed; the
    exception is then the [ValueError] of such a cell (the specification's
    AmountParseError), and [main] is left with that exception at once:
    the page holds what it held when parsing began (the title, the upload
    prompt and the spinner), no table, link or metric is put on it, and no
    file is touched. *)
Theorem extract_raises_iff_amount_not_numeric (response : string) :
  ((exists e, extract_table_from_response response = inl e) <->
   (exists row a,
      In row (table_data (run_loop (PyStr.split LF response) loop_init)) /\
      List.length row = 4 /\ nth_error row 2 = Some a /\
      PyFloat.python_float (remove_commas a) = None)) /\
  (forall e, extract_table_from_response response = inl e ->
     exists row a,
       In row (table_data (run_loop (PyStr.split LF response) loop_init)) /\
       nth_error row 2 = Some a /\
       PyFloat.python_float (remove_commas a) = None /\
       e = ValueError (remove_commas a)) /\
  (forall e xlsx_writer tmp_stem read_fails b64encode date_input_defaults
          u fs,
     extract_table_from_response response = inl e ->
     main xlsx_writer tmp_stem read_fails b64encode date_input_defaults
          (Some response) u fs
     = ({| files := files fs; screen := screen fs ++ page_before_parsing |},
        inl e)).
Proof.
  assert (Hfirst : forall e, extract_table_from_response response = inl e ->
     exists row a,
       In row (table_data (run_loop (PyStr.split LF response) loop_init)) /\
       List.length row = 4 /\ nth_error row 2 = Some a /\
       PyFloat.python_float (remove_commas a) = None /\
       e = ValueError (remove_commas a)).
  { intros e He. unfold extract_table_from_response in He.
    rewrite extract_from_lines_rows in He.
    apply traverse_raises_first in He as (row & Hin & Hr).
    pose proof (proj1 (table_data_rows _ _ Hin)) as Hlen.
    destruct (record_of_row_raises row e Hlen Hr) as (a & Hn & Hf & ->).
    now exists row, a. }
  split; [split|split].
  - intros [e He]. destruct (Hfirst e He) as (row & a & ? & ? & ? & ? & _).
    now exists row, a.
  - intros (row & a & Hin & Hlen & Hn & Hf).
    unfold extract_table_from_response. rewrite extract_from_lines_rows.
    apply traverse_raises_iff.
    exists row, (ValueError (remove_commas a)). split; [exact Hin|].
    now apply record_of_row_not_numeric.
  - intros e He. destruct (Hfirst e He) as (row & a & ? & ? & ? & ? & ?).
    now exists row, a.
  - intros e w stem rf b64 dflt u fs He.
    unfold main, io_bind, io_lift, show. simpl. rewrite He.
    now rewrite <- !app_assoc.
Qed.

(** A reply whose only data row has the amount [n/a]: the parser raises. *)
Lemma extract_raises_iff_amount_not_numeric_witness :
  exists e,
    extract_table_from_response (PyStr.join LF [header_line; pending_line])
    = inl e.
Proof.
  apply (proj2 (proj1 (extract_raises_iff_amount_not_numeric
                         (PyStr.join LF [header_line; pending_line])))).
  exists ["2024-11-03"; "COMISION"; "n/a"; "Expense"], "n/a".
  repeat split; vm_compute; auto.
Defined.

(* ================================================================== *)
(** ** Lines that are dropped *)
(* ================================================================== *)

(** C4: a line after the header marker whose cells, once trimmed and the
    empty ones left out, are not exactly four, and likewise a separator
    line (one made of pipes, dashes and blanks only, such as
    [|---|---|---|---|], which has four cells [---] and is stopped by the
    test on [line.strip('|- ')]), adds no row and raises nothing: the
    result of the parser, value or exception, is the one it gives without
    that line.  A reply in which only such a line follows the header gives
    the empty record set. *)
Theorem other_lines_dropped_silently :
  (forall response pre line post,
     PyStr.split LF response = pre ++ line :: post ->
     existsb is_header pre = true ->
     List.length (row_of_line line) <> 4 \/
     PyStr.strip_chars "|- " line = EmptyString ->
     table_data (run_loop (pre ++ [line]) loop_init) =
       table_data (run_loop pre loop_init) /\
     extract_table_from_response response = extract_from_lines (pre ++ post))
  /\
  (forall response pre header line,
     PyStr.split LF response = pre ++ [header; line] ->
     (forall l, In l pre -> is_header l = false) ->
     is_header header = true ->
     List.length (row_of_line line) <> 4 \/
     PyStr.strip_chars "|- " line = EmptyString ->
     extract_table_from_response response = inr [])
  /\
  (row_of_line separator_line = ["---"; "---"; "---"; "---"] /\
   PyStr.strip_chars "|- " separator_line = EmptyString).
Proof.
  assert (Hdrop : forall st line,
            start_parsing st = true ->
            List.length (row_of_line line) <> 4 \/
            PyStr.strip_chars "|- " line = EmptyString ->
            loop_body st line = st).
  { intros st line Hs [H | H]; apply loop_body_started_dropped; auto. }
  split; [|split; [|split; reflexivity]].
  - intros response pre line post Hsplit Hh Hline.
    assert (Hs : start_parsing (run_loop pre loop_init) = true)
      by now apply run_loop_header_seen.
    split.
    + rewrite run_loop_app. simpl. now rewrite Hdrop.
    + unfold extract_table_from_response. rewrite Hsplit.
      unfold extract_from_lines.
      rewrite !run_loop_app. simpl. now rewrite Hdrop.
  - intros response pre header line Hsplit Hpre Hh Hline.
    unfold extract_table_from_response, extract_from_lines.
    rewrite Hsplit, run_loop_app.
    rewrite (run_loop_no_header pre loop_init) by auto.
    simpl. rewrite (loop_body_header _ _ Hh), Hdrop by auto.
    reflexivity.
Qed.

(** The header row followed by the separator row, and the header row
    followed by a row of three cells. *)
Lemma other_lines_dropped_silently_witness :
  extract_table_from_response (PyStr.join LF [header_line; separator_line])
  = inr [] /\
  extract_table_from_response
    (PyStr.join LF [header_line; "| 2024-11-01 | RENT | 10 |"; rent_line])
  = extract_from_lines ([header_line] ++ [rent_line]).
Proof.
  destruct other_lines_dropped_silently as (Hdrop & Hsep & _). split.
  - apply (Hsep (PyStr.join LF [header_line; separator_line])
                [] header_line separator_line eq_refl).
    + intros l [].
    + reflexivity.
    + right. reflexivity.
  - apply (Hdrop (PyStr.join LF
                    [header_line; "| 2024-11-01 | RENT | 10 |"; rent_line])
                 [header_line] "| 2024-11-01 | RENT | 10 |" [rent_line]
                 eq_refl eq_refl).
    left. vm_compute. discriminate.
Defined.

(* ================================================================== *)
(** ** Lines before the header marker *)
(* ================================================================== *)

(** C5: the lines before the header marker, that is before the first
    candidate line with ["Date"] in it, leave the state of the loop as it
    was at the start, whatever they contain: no row is kept from them, and
    the parser returns what it returns on the remaining lines alone. *)
Theorem lines_before_header_ignored
    (response : string) (pre rest : list string) :
  PyStr.split LF response = pre ++ rest ->
  (forall l, In l pre -> is_header l = false) ->
  run_loop pre loop_init = loop_init /\
  table_data (run_loop pre loop_init) = [] /\
  extract_table_from_response response = extract_from_lines rest.
Proof.
  intros Hsplit Hpre.
  assert (E : run_loop pre loop_init = loop_init)
    by now apply run_loop_no_header.
  split; [exact E|]. split; [now rewrite E|].
  unfold extract_table_from_response, extract_from_lines.
  now rewrite Hsplit, run_loop_app, E.
Qed.

(** A line of four cells before the header row is not recorded. *)
Lemma lines_before_header_ignored_witness :
  extract_table_from_response
    (PyStr.join LF [preamble_line; header_line; rent_line])
  = inr [rent_record].
Proof.
  rewrite (proj2 (proj2 (lines_before_header_ignored
             (PyStr.join LF [preamble_line; header_line; rent_line])
             [preamble_line] [header_line; rent_line] eq_refl
             ltac:(intros l [<- | []]; reflexivity)))).
  vm_compute. reflexivity.
Defined.

(* ================================================================== *)
(** ** Lines with ["Date"] in them *)
(* ================================================================== *)

(** C10: a candidate line with ["Date"] in it, wherever it stands, adds no
    row (it only switches parsing on); every record of a result comes from
    a candidate line of the reply without ["Date"] in it; and a data row
    after the header whose concept is "Date night" gives no record. *)
Theorem date_lines_never_recorded :
  (forall pre line post,
     is_candidate line = true -> PyStr.contains "Date" line = true ->
     table_data (run_loop (pre ++ line :: post) loop_init) =
       table_data (run_loop pre loop_init) ++
       table_data (run_loop post loop_started))
  /\
  (forall response df r,
     extract_table_from_response response = inr df -> In r df ->
     exists line a,
       In line (PyStr.split LF response) /\
       is_candidate line = true /\ PyStr.contains "Date" line = false /\
       row_of_line line = [Date r; Concept r; a; Type_ r] /\
       parse_amount a = inr (Amount_MXN r))
  /\
  extract_table_from_response
    (PyStr.join LF [header_line; date_night_line; rent_line])
  = inr [rent_record].
Proof.
  split; [|split; [|vm_compute; reflexivity]].
  - intros pre line post Hc Hd.
    rewrite run_loop_app. simpl.
    rewrite loop_body_header by (unfold is_header; now rewrite Hc, Hd).
    now rewrite run_loop_frame.
  - intros response df r Hdf Hin.
    unfold extract_table_from_response in Hdf.
    rewrite extract_from_lines_rows in Hdf.
    apply traverse_returns in Hdf.
    destruct (Forall2_In_r _ _ _ _ Hdf Hin) as (row & Hrow & Hr).
    apply record_of_row_returns in Hr as (a & -> & Ha).
    apply table_data_rows in Hrow as (_ & _ & line & Hl & Hk & E).
    destruct Hk as (Hc & Hd & _).
    exists line, a. auto.
Qed.

Lemma date_lines_never_recorded_witness :
  table_data (run_loop ([header_line] ++ date_night_line :: [rent_line])
                       loop_init)
  = table_data (run_loop [header_line] loop_init) ++
    table_data (run_loop [rent_line] loop_started).
Proof.
  apply (proj1 date_lines_never_recorded
               [header_line] date_night_line [rent_line]); reflexivity.
Defined.

(* ================================================================== *)
(** ** The shape of the records *)
(* ================================================================== *)

(** C9: every kept row has exactly four cells, each of them non-empty and
    trimmed; every record of every result is made of such a row: its date,
    concept and category are the first, second and fourth cell and its
    amount is the float parsed from the third. *)
Theorem records_have_four_nonempty_fields (response : string) :
  (forall row,
     In row (table_data (run_loop (PyStr.split LF response) loop_init)) ->
     List.length row = 4 /\
     forall cell, In cell row ->
                  cell <> EmptyString /\ PyStr.strip cell = cell)
  /\
  (forall df r,
     extract_table_from_response response = inr df -> In r df ->
     exists a,
       In [Date r; Concept r; a; Type_ r]
          (table_data (run_loop (PyStr.split LF response) loop_init)) /\
       parse_amount a = inr (Amount_MXN r) /\
       (Date r <> EmptyString /\ PyStr.strip (Date r) = Date r) /\
       (Concept r <> EmptyString /\ PyStr.strip (Concept r) = Concept r) /\
       (a <> EmptyString /\ PyStr.strip a = a) /\
       (Type_ r <> EmptyString /\ PyStr.strip (Type_ r) = Type_ r)).
Proof.
  split.
  - intros row Hin. apply table_data_rows in Hin as (Hlen & Hcells & _).
    auto.
  - intros df r Hdf Hin.
    unfold extract_table_from_response in Hdf.
    rewrite extract_from_lines_rows in Hdf.
    apply traverse_returns in Hdf.
    destruct (Forall2_In_r _ _ _ _ Hdf Hin) as (row & Hrow & Hr).
    apply record_of_row_returns in Hr as (a & -> & Ha).
    exists a. split; [exact Hrow|]. split; [exact Ha|].
    apply table_data_rows in Hrow as (_ & Hcells & _).
    repeat split; apply Hcells; simpl; auto.
Qed.

Lemma records_have_four_nonempty_fields_witness :
  exists a,
    In ["2024-11-01"; "RENTA DEPTO CHAPULTEPEC"; a; "Expense"]
       (table_data
          (run_loop (PyStr.split LF (PyStr.join LF [header_line; rent_line]))
                    loop_init)) /\
    parse_amount a = inr f64_12345 /\
    ("2024-11-01" <> EmptyString /\
     PyStr.strip "2024-11-01" = "2024-11-01") /\
    ("RENTA DEPTO CHAPULTEPEC" <> EmptyString /\
     PyStr.strip "RENTA DEPTO CHAPULTEPEC" = "RENTA DEPTO CHAPULTEPEC") /\
    (a <> EmptyString /\ PyStr.strip a = a) /\
    ("Expense" <> EmptyString /\ PyStr.strip "Expense" = "Expense").
Proof.
  apply (proj2 (records_have_four_nonempty_fields
                  (PyStr.join LF [header_line; rent_line]))
               [rent_record] rent_record).
  - vm_compute. reflexivity.
  - left. reflexivity.
Defined.

(* ================================================================== *)
(** ** Amounts *)
(* ================================================================== *)

(** C8: parsing an amount removes its commas first, so parsing is
    unchanged by removing them beforehand, what is parsed has no comma
    left, and on a string without commas it is the plain conversion to
    float; ["1,234.50"] and ["1234.50"] both give 1234.5. *)
Theorem amount_parsing_idempotent_under_comma_removal :
  (forall s, parse_amount (remove_commas s) = parse_amount s) /\
  (forall s, PyStr.contains "," (remove_commas s) = false) /\
  (forall s, PyStr.contains "," s = false -> parse_amount s = to_float s) /\
  parse_amount "1,234.50" = inr f64_1234_5 /\
  parse_amount "1234.50" = inr f64_1234_5.
Proof.
  repeat split.
  - intros s. unfold parse_amount, remove_commas.
    now rewrite remove_char_idem.
  - intros s. rewrite contains_char. apply mem_remove_char.
  - intros s H. rewrite contains_char in H.
    unfold parse_amount, remove_commas. now rewrite remove_char_absent.
Qed.

Lemma amount_parsing_idempotent_under_comma_removal_witness :
  parse_amount "1234.50" = to_float "1234.50".
Proof.
  apply (proj1 (proj2 (proj2 amount_parsing_idempotent_under_comma_removal))
               "1234.50").
  reflexivity.
Defined.

(* ================================================================== *)
(** ** The summary metrics *)
(* ================================================================== *)

(** C7: on the empty record set the total income, the total expenses and
    the balance are all [0.0]; the three are plain values, computed without
    any exception.  In particular a reply without a header row parses to
    the empty record set, whose three totals are [0.0]. *)
Theorem empty_record_set_totals_zero :
  (total_income [] = PyFloat.zero /\
   total_expenses [] = PyFloat.zero /\
   balance [] = PyFloat.zero) /\
  (forall response,
     (forall l, In l (PyStr.split LF response) -> is_header l = false) ->
     exists df,
       extract_table_from_response response = inr df /\ df = [] /\
       total_income df = PyFloat.zero /\
       total_expenses df = PyFloat.zero /\
       balance df = PyFloat.zero).
Proof.
  split; [repeat split|].
  intros response Hno. exists []. repeat split.
  unfold extract_table_from_response, extract_from_lines.
  now rewrite run_loop_no_header.
Qed.

Lemma empty_record_set_totals_zero_witness :
  exists df,
    extract_table_from_response no_table_reply = inr df /\ df = [] /\
    total_income df = PyFloat.zero /\
    total_expenses df = PyFloat.zero /\
    balance df = PyFloat.zero.
Proof.
  apply (proj2 empty_record_set_totals_zero no_table_reply).
  intros l [<- | [<- | []]]; reflexivity.
Defined.

(* ================================================================== *)
(** ** The filter of the first tab *)
(* ================================================================== *)

Lemma boolean_index_map_In {A : Type} (keep : A -> bool) (df : list A)
    (r : A) :
  In r (boolean_index df (map keep df)) <-> In r df /\ keep r = true.
Proof.
  induction df as [|x df IH]; simpl; [tauto|].
  destruct (keep x) eqn:E; simpl; rewrite IH; intuition congruence.
Qed.

(** What the filter keeps: the rows whose category is selected. *)
Lemma df_filtered_In (df : DataFrame) (u : UserInput)
    (r : TransactionRecord) :
  In r (df_filtered df u) <-> In r df /\ In (Type_ r) (selected_types u).
Proof.
  unfold df_filtered, mask, isin. rewrite map_map.
  rewrite (boolean_index_map_In
             (fun x => existsb (String.eqb (Type_ x)) (selected_types u))).
  rewrite existsb_exists. split; intros [H1 H2]; split; auto.
  - destruct H2 as (t & Ht & E). apply String.eqb_eq in E. now subst.
  - exists (Type_ r). split; [exact H2 | apply String.eqb_refl].
Qed.

(** C2, on the code: the date range chosen in the widget takes no part in
    the filter.  Whatever the range, [main] shows and exports the same
    frame, the rows whose category is selected; with the rent row of
    2024-11-01 parsed, its category selected and January 2025 as range, the
    rent row is in the table shown and in the workbook exported. *)
Theorem date_range_not_applied :
  (forall xlsx_writer tmp_stem read_fails b64encode date_input_defaults
          reply types range1 range2 click w,
     main xlsx_writer tmp_stem read_fails b64encode date_input_defaults
          reply (mk_UserInput types range1 click) w =
     main xlsx_writer tmp_stem read_fails b64encode date_input_defaults
          reply (mk_UserInput types range2 click) w) /\
  (forall df u r,
     In r (df_filtered df u) <-> In r df /\ In (Type_ r) (selected_types u))
  /\
  main dates_writer "/tmp/tmpk3v9" false (fun data => data) date_input_ok
       (Some (PyStr.join LF [header_line; rent_line]))
       expense_in_january_2025 empty_world
  = ({| files := []; screen := rent_page |}, inr tt).
Proof.
  split; [reflexivity|].
  split; [intros df u r; apply df_filtered_In|].
  vm_compute. reflexivity.
Qed.

(* ================================================================== *)
(** ** The temporary file of the export *)
(* ================================================================== *)

Lemma fs_lookup_remove (path : string) (fs : FileSystem) :
  fs_lookup path (fs_remove path fs) = None.
Proof.
  induction fs as [|[p data] fs IH]; [reflexivity|].
  simpl. destruct (String.eqb p path) eqn:E; simpl; [exact IH|].
  now rewrite E.
Qed.

Lemma fs_exists_write (path data : string) (fs : FileSystem) :
  fs_exists path (fs_write path data fs) = true.
Proof. unfold fs_exists, fs_write. simpl. now rewrite String.eqb_refl. Qed.

Lemma fs_lookup_write (path data : string) (fs : FileSystem) :
  fs_lookup path (fs_write path data fs) = Some data.
Proof. unfold fs_write. simpl. now rewrite String.eqb_refl. Qed.

Section ExportFacts.
Variable xlsx_writer : DataFrame -> result string.
Variable tmp_stem : string.
Variable read_fails : bool.
Variable b64encode : string -> string.

(** When nothing raises, the link is returned and the file is gone. *)
Lemma create_excel_download_link_returns (df : DataFrame)
    (w : World) (data : string) :
  xlsx_writer df = inr data -> read_fails = false ->
  let after :=
    create_excel_download_link xlsx_writer tmp_stem read_fails b64encode
                               df w in
  (exists url, snd after = inr url) /\
  fs_exists (tmp_stem ++ ".xlsx")%string (files (fst after)) = false.
Proof.
  intros Hw Hr.
  unfold create_excel_download_link, with_NamedTemporaryFile, io_bind,
    to_excel, read_binary, os_unlink, io_ret, set_files.
  cbn [files screen].
  rewrite Hw. cbn [files screen]. rewrite fs_lookup_write, Hr.
  cbn [files screen]. rewrite fs_exists_write.
  split; [eexists; reflexivity|].
  cbn [fst files]. unfold fs_exists. now rewrite fs_lookup_remove.
Qed.

(** When the writer or the reading raises, the exception leaves the
    function before [os.unlink] and the file stays. *)
Lemma create_excel_download_link_raises (df : DataFrame) (w : World) :
  (exists e, xlsx_writer df = inl e) \/ read_fails = true ->
  let after :=
    create_excel_download_link xlsx_writer tmp_stem read_fails b64encode
                               df w in
  (exists e, snd after = inl e) /\
  fs_exists (tmp_stem ++ ".xlsx")%string (files (fst after)) = true.
Proof.
  unfold create_excel_download_link, with_NamedTemporaryFile, io_bind,
    to_excel, read_binary, os_unlink, io_ret, set_files.
  cbn [files screen].
  destruct (xlsx_writer df) as [e|data] eqn:Hw.
  - intros _. cbn [fst snd files]. split; [now exists e|].
    apply fs_exists_write.
  - intros [[e He] | Hr]; [discriminate|].
    cbn [files screen]. rewrite fs_lookup_write, Hr. cbn [fst snd files].
    split; [now eexists | apply fs_exists_write].
Qed.
End ExportFacts.

(** C6, on the code: when the spreadsheet writer raises, and likewise when
    reading the file back raises, [create_excel_download_link] is left by
    the exception and the temporary file it created still exists
    afterwards; it is removed only on the path where nothing raises. *)
Theorem temporary_file_left_when_export_raises
    (xlsx_writer : DataFrame -> result string) (tmp_stem : string)
    (read_fails : bool) (b64encode : string -> string)
    (df : DataFrame) (w : World) :
  (exists e, xlsx_writer df = inl e) \/ read_fails = true ->
  let after :=
    create_excel_download_link xlsx_writer tmp_stem read_fails b64encode
                               df w in
  (exists e, snd after = inl e) /\
  fs_exists (tmp_stem ++ ".xlsx")%string (files (fst after)) = true.
Proof. apply create_excel_download_link_raises. Qed.

(** The export of the rent record with a writer that fails on a full disk:
    the file [/tmp/tmpk3v9.xlsx] is left behind. *)
Lemma temporary_file_left_when_export_raises_witness :
  fs_exists "/tmp/tmpk3v9.xlsx"
    (files (fst (create_excel_download_link failing_writer "/tmp/tmpk3v9"
                   false (fun data => data) [rent_record] empty_world)))
  = true.
Proof.
  apply (temporary_file_left_when_export_raises
           failing_writer "/tmp/tmpk3v9" false (fun data => data)
           [rent_record] empty_world).
  left. eexists. reflexivity.
Defined.

(* ================================================================== *)
(** ** Further facts about splitting and stripping *)
(* ================================================================== *)

Lemma split_nonempty (sep : ascii) (s : string) :
  exists w ws, PyStr.split sep s = w :: ws.
Proof.
  induction s as [|c s (w & ws & IH)]; simpl; [now eexists; eexists|].
  destruct (Ascii.eqb c sep); [now eexists; eexists|].
  rewrite IH. now eexists; eexists.
Qed.

(** Splitting at a separator splits the pieces on both sides of it. *)
Lemma split_app (sep : ascii) (a b : string) :
  PyStr.split sep (a ++ String sep b)%string =
  PyStr.split sep a ++ PyStr.split sep b.
Proof.
  induction a as [|c a IH]; simpl.
  - now rewrite Ascii.eqb_refl.
  - destruct (Ascii.eqb c sep); [now rewrite IH|].
    rewrite IH. destruct (split_nonempty sep a) as (w & ws & ->).
    reflexivity.
Qed.

Lemma split_absent (sep : ascii) (s : string) :
  PyStr.mem sep s = false -> PyStr.split sep s = [s].
Proof.
  induction s as [|c s IH]; [reflexivity|].
  simpl. rewrite (Ascii.eqb_sym sep c).
  destruct (Ascii.eqb c sep); [discriminate|]. simpl.
  intros H. now rewrite IH.
Qed.

Lemma mem_app (c : ascii) (a b : string) :
  PyStr.mem c (a ++ b)%string = PyStr.mem c a || PyStr.mem c b.
Proof.
  induction a as [|d a IH]; [reflexivity|].
  simpl. rewrite IH. now rewrite orb_assoc.
Qed.

Lemma remove_char_app (c : ascii) (a b : string) :
  PyStr.remove_char c (a ++ b)%string =
  (PyStr.remove_char c a ++ PyStr.remove_char c b)%string.
Proof.
  induction a as [|d a IH]; [reflexivity|].
  simpl. destruct (Ascii.eqb d c); [exact IH|]. simpl. now rewrite IH.
Qed.

Lemma row_of_line_empty : row_of_line EmptyString = [].
Proof. reflexivity. Qed.

(* ================================================================== *)
(** ** The cells of a line *)
(* ================================================================== *)

(** X1: the cells of two parts joined by a pipe are the cells of the first
    part followed by those of the second.  Hence a pipe at the start or at
    the end of a line adds no cell, and a cell that is blank (empty or
    white space only) between two pipes vanishes: the cells after it move
    one column to the left. *)
Theorem cells_of_joined_parts :
  (forall a b,
     row_of_line (a ++ String "|" b)%string = row_of_line a ++ row_of_line b)
  /\
  (forall line, row_of_line (String "|" line) = row_of_line line) /\
  (forall line, row_of_line (line ++ "|")%string = row_of_line line) /\
  (forall a blank b,
     PyStr.mem "|" blank = false -> PyStr.strip blank = EmptyString ->
     row_of_line (a ++ String "|" (blank ++ String "|" b))%string =
     row_of_line a ++ row_of_line b).
Proof.
  assert (Happ : forall a b,
     row_of_line (a ++ String "|" b)%string = row_of_line a ++ row_of_line b).
  { intros a b. unfold row_of_line.
    now rewrite split_app, filter_app, map_app. }
  split; [exact Happ|]. split; [|split].
  - intros line. apply (Happ EmptyString line).
  - intros line. rewrite (Happ line EmptyString), row_of_line_empty.
    apply app_nil_r.
  - intros a blank b Hm Hs. rewrite Happ, Happ. f_equal.
    unfold row_of_line at 1. rewrite split_absent by exact Hm.
    simpl. now rewrite Hs.
Qed.

(** A row of five columns whose second cell is blank reads as four
    cells. *)
Lemma cells_of_joined_parts_witness :
  row_of_line ("| 2024-11-01 " ++ String "|" ("  " ++ String "|"
                 " RENT | 10.00 | Expense |"))%string
  = row_of_line "| 2024-11-01 " ++ row_of_line " RENT | 10.00 | Expense |".
Proof.
  apply (proj2 (proj2 (proj2 cells_of_joined_parts))
               "| 2024-11-01 " "  " " RENT | 10.00 | Expense |");
    reflexivity.
Defined.

(* ================================================================== *)
(** ** The parser without its loop *)
(* ================================================================== *)

Lemma run_loop_cons (l : string) (lines : list string) (st : loop_state) :
  run_loop (l :: lines) st = run_loop lines (loop_body st l).
Proof. reflexivity. Qed.

Lemma loop_body_started_keptb (st : loop_state) (line : string) :
  start_parsing st = true ->
  loop_body st line =
  mk_loop_state
    (table_data st ++ if keptb line then [row_of_line line] else []) true.
Proof.
  destruct st as [rows sp]. simpl. intros ->.
  unfold loop_body, keptb, is_candidate. simpl.
  destruct (PyStr.contains "|" line); simpl; [|now rewrite app_nil_r].
  destruct (PyStr.contains "Date" line); simpl; [now rewrite app_nil_r|].
  destruct (PyStr.truthy (PyStr.strip_chars "|- " line)); simpl;
    [|now rewrite app_nil_r].
  destruct (Nat.eqb (List.length (row_of_line line)) 4); simpl;
    [reflexivity | now rewrite app_nil_r].
Qed.

Lemma run_loop_started (lines : list string) (st : loop_state) :
  start_parsing st = true ->
  table_data (run_loop lines st) =
  table_data st ++ map row_of_line (filter keptb lines).
Proof.
  revert st. induction lines as [|l lines IH]; intros st Hs; simpl.
  - now rewrite app_nil_r.
  - change (run_loop (l :: lines) st) with (run_loop lines (loop_body st l)).
    rewrite loop_body_started_keptb by exact Hs.
    rewrite IH by reflexivity. simpl.
    rewrite <- app_assoc. destruct (keptb l); reflexivity.
Qed.

Lemma table_data_after_first_header (lines : list string) :
  table_data (run_loop lines loop_init) =
  map row_of_line (filter keptb (after_header lines)).
Proof.
  induction lines as [|l lines IH]; [reflexivity|].
  change (run_loop (l :: lines) loop_init)
    with (run_loop lines (loop_body loop_init l)).
  simpl after_header. destruct (is_header l) eqn:E.
  - rewrite loop_body_header by exact E.
    now rewrite run_loop_started.
  - now rewrite loop_body_not_started.
Qed.

(** X2: the rows the loop keeps are, in the order of the reply, the cells
    of the lines after the first header row that pass the test of the loop
    (a pipe, no ["Date"], more than pipes, dashes and blanks, four cells);
    the parser converts exactly these rows, and a record set it returns has
    one record for each of these lines. *)
Theorem parser_is_filter_after_header (response : string) :
  let kept := filter keptb (after_header (PyStr.split LF response)) in
  table_data (run_loop (PyStr.split LF response) loop_init) =
    map row_of_line kept /\
  extract_table_from_response response =
    traverse record_of_row (map row_of_line kept) /\
  (forall df, extract_table_from_response response = inr df ->
              List.length df = List.length kept).
Proof.
  intros kept.
  assert (E : extract_table_from_response response =
              traverse record_of_row (map row_of_line kept)).
  { unfold extract_table_from_response.
    now rewrite extract_from_lines_rows, table_data_after_first_header. }
  split; [apply table_data_after_first_header|]. split; [exact E|].
  intros df Hdf. rewrite E in Hdf. apply traverse_returns in Hdf.
  apply Forall2_length in Hdf. now rewrite length_map in Hdf.
Qed.

Lemma parser_is_filter_after_header_witness :
  List.length [rent_record] =
  List.length
    (filter keptb
       (after_header
          (PyStr.split LF
             (PyStr.join LF [preamble_line; header_line; separator_line;
                             rent_line; date_night_line])))).
Proof.
  apply (proj2 (proj2 (parser_is_filter_after_header
           (PyStr.join LF [preamble_line; header_line; separator_line;
                           rent_line; date_night_line])))).
  vm_compute. reflexivity.
Defined.

(** X3: tables concatenate.  When a header row stands in the middle of the
    lines, the parser gives on the whole what it gives on the lines before
    that header followed by what it gives on the lines from that header
    on; the first of the two exceptions, if any, is the one raised. *)
Theorem tables_concatenate (first : list string) (header : string)
    (second : list string) :
  is_header header = true ->
  extract_from_lines (first ++ header :: second) =
  (df1 <- extract_from_lines first ;;
   df2 <- extract_from_lines (header :: second) ;;
   ret (df1 ++ df2)).
Proof.
  intros Hh. rewrite !extract_from_lines_rows.
  assert (E : table_data (run_loop (first ++ header :: second) loop_init) =
              table_data (run_loop first loop_init) ++
              table_data (run_loop (header :: second) loop_init)).
  { rewrite run_loop_app, !run_loop_cons.
    rewrite !loop_body_header by exact Hh.
    rewrite (run_loop_started second
               (mk_loop_state (table_data (run_loop first loop_init)) true))
      by reflexivity.
    rewrite (run_loop_started second
               (mk_loop_state (table_data loop_init) true))
      by reflexivity.
    reflexivity. }
  rewrite E. apply traverse_app.
Qed.

Lemma tables_concatenate_witness :
  extract_from_lines
    ([header_line; rent_line] ++ header_line :: [rent_line])
  = inr ([rent_record] ++ [rent_record]).
Proof.
  rewrite (tables_concatenate [header_line; rent_line] header_line
                              [rent_line] eq_refl).
  vm_compute. reflexivity.
Defined.

(** X4: lines without a pipe play no part: the parser gives the same
    result, value or exception, when all of them are taken out of the
    reply's lines. *)
Theorem lines_without_pipe_ignored (lines : list string) :
  extract_from_lines (filter is_candidate lines) = extract_from_lines lines.
Proof.
  unfold extract_from_lines.
  assert (E : forall st,
            run_loop (filter is_candidate lines) st = run_loop lines st).
  { induction lines as [|l lines IH]; intros st; [reflexivity|].
    simpl. destruct (is_candidate l) eqn:Ec.
    - apply IH.
    - change (run_loop (l :: lines) st)
        with (run_loop lines (loop_body st l)).
      rewrite IH. f_equal. unfold loop_body.
      unfold is_candidate in Ec. now rewrite Ec. }
  now rewrite E.
Qed.

Lemma traverse_first_failure {A B : Type} (f : A -> result B) (l : list A)
    (e : exn) :
  traverse f l = inl e ->
  exists l1 a l2 bs,
    l = l1 ++ a :: l2 /\ traverse f l1 = inr bs /\ f a = inl e.
Proof.
  induction l as [|a l IH]; simpl; [discriminate|].
  destruct (f a) as [e'|b] eqn:E; simpl.
  - intros H. injection H as <-. now exists [], a, l, [].
  - destruct (traverse f l) as [e'|bs]; simpl; [|discriminate].
    intros H. injection H as <-.
    destruct IH as (l1 & a' & l2 & bs & -> & H1 & Ha'); [reflexivity|].
    exists (a :: l1), a', l2, (b :: bs). simpl. now rewrite E, H1.
Qed.

(** X5: the exception of the parser names the first amount that is not a
    number: the kept rows before the offending row all convert, and the
    text carried by the [ValueError] is the third cell of that row with its
    commas removed. *)
Theorem first_bad_amount_is_reported (response : string) (e : exn) :
  extract_table_from_response response = inl e ->
  exists good bad rest converted a,
    table_data (run_loop (PyStr.split LF response) loop_init) =
      good ++ bad :: rest /\
    traverse record_of_row good = inr converted /\
    nth_error bad 2 = Some a /\
    PyFloat.python_float (remove_commas a) = None /\
    e = ValueError (remove_commas a).
Proof.
  unfold extract_table_from_response. rewrite extract_from_lines_rows.
  intros H.
  apply traverse_first_failure in H as (good & bad & rest & bs & E & Hg & Hb).
  assert (Hlen : List.length bad = 4).
  { apply (table_data_rows (PyStr.split LF response)).
    rewrite E. apply in_elt. }
  destruct (record_of_row_raises bad e Hlen Hb) as (a & Hn & Hf & ->).
  now exists good, bad, rest, bs, a.
Qed.

(** Two rows with bad amounts: the exception is that of the first. *)
Lemma first_bad_amount_is_reported_witness :
  exists good bad rest converted a,
    table_data
      (run_loop (PyStr.split LF
                   (PyStr.join LF [header_line; rent_line; pending_line;
                                   "| 2024-11-04 | CARGO | -- | Expense |"]))
                loop_init) =
      good ++ bad :: rest /\
    traverse record_of_row good = inr converted /\
    nth_error bad 2 = Some a /\
    PyFloat.python_float (remove_commas a) = None /\
    ValueError "n/a" = ValueError (remove_commas a).
Proof.
  apply (first_bad_amount_is_reported
           (PyStr.join LF [header_line; rent_line; pending_line;
                           "| 2024-11-04 | CARGO | -- | Expense |"])).
  vm_compute. reflexivity.
Defined.

(* ================================================================== *)
(** ** Commas in amounts *)
(* ================================================================== *)

(** X6: a comma is dropped wherever it stands in an amount, not only
    between groups of three digits: an amount parses as the same text
    without the comma does.  A decimal comma is thus not a decimal point,
    ["12,50"] is read as 1250. *)
Theorem comma_ignored_anywhere :
  (forall a b,
     parse_amount (a ++ String "," b)%string = parse_amount (a ++ b)%string)
  /\
  parse_amount "12,50" = parse_amount "1250".
Proof.
  split; [|reflexivity].
  intros a b. unfold parse_amount, remove_commas.
  rewrite !remove_char_app. simpl. reflexivity.
Qed.

(* ================================================================== *)
(** ** White space at the end of a line *)
(* ================================================================== *)

Section StripAppend.
Variable drop : ascii -> bool.

Lemma rstrip_by_app_drop (s : string) (c : ascii) :
  drop c = true ->
  PyStr.rstrip_by drop (s ++ char c)%string = PyStr.rstrip_by drop s.
Proof.
  intros D. induction s as [|d s IH]; simpl.
  - now rewrite D.
  - now rewrite IH.
Qed.

Lemma rstrip_by_app_keep (s : string) (c : ascii) :
  drop c = false ->
  PyStr.rstrip_by drop (s ++ char c)%string = (s ++ char c)%string.
Proof.
  intros D. induction s as [|d s IH]; simpl.
  - now rewrite D.
  - rewrite IH. destruct (s ++ char c)%string eqn:E; [|reflexivity].
    destruct s; discriminate.
Qed.

Lemma lstrip_by_app_empty (s t : string) :
  PyStr.lstrip_by drop s = EmptyString ->
  PyStr.lstrip_by drop (s ++ t)%string = PyStr.lstrip_by drop t.
Proof.
  induction s as [|d s IH]; simpl; [reflexivity|].
  destruct (drop d); [exact IH | discriminate].
Qed.

Lemma lstrip_by_app_nonempty (s t : string) :
  PyStr.lstrip_by drop s <> EmptyString ->
  PyStr.lstrip_by drop (s ++ t)%string = (PyStr.lstrip_by drop s ++ t)%string.
Proof.
  induction s as [|d s IH]; simpl; [congruence|].
  destruct (drop d); [exact IH | reflexivity].
Qed.

Lemma strip_by_app_drop (s : string) (c : ascii) :
  drop c = true ->
  PyStr.strip_by drop (s ++ char c)%string = PyStr.strip_by drop s.
Proof.
  intros D. unfold PyStr.strip_by.
  destruct (PyStr.lstrip_by drop s) as [|d r] eqn:E.
  - rewrite lstrip_by_app_empty by exact E. simpl. now rewrite D.
  - rewrite lstrip_by_app_nonempty by (rewrite E; discriminate).
    rewrite E. now apply rstrip_by_app_drop.
Qed.

Lemma strip_by_app_keep (s : string) (c : ascii) :
  drop c = false ->
  PyStr.strip_by drop (s ++ char c)%string <> EmptyString.
Proof.
  intros D. unfold PyStr.strip_by.
  destruct (PyStr.lstrip_by drop s) as [|d r] eqn:E.
  - rewrite lstrip_by_app_empty by exact E. simpl. rewrite D. simpl.
    rewrite D. discriminate.
  - rewrite lstrip_by_app_nonempty by (rewrite E; discriminate).
    rewrite E, rstrip_by_app_keep by exact D. discriminate.
Qed.

Lemma lstrip_by_mem (s : string) (c : ascii) :
  PyStr.mem c (PyStr.lstrip_by drop s) = true -> PyStr.mem c s = true.
Proof.
  induction s as [|d s IH]; simpl; [discriminate|].
  destruct (drop d); [|exact (fun H => H)].
  intros H. rewrite (IH H). apply orb_true_r.
Qed.

Lemma rstrip_by_mem (s : string) (c : ascii) :
  PyStr.mem c (PyStr.rstrip_by drop s) = true -> PyStr.mem c s = true.
Proof.
  induction s as [|d s IH]; simpl; [discriminate|].
  destruct (PyStr.rstrip_by drop s) as [|d' r].
  - destruct (drop d); simpl; [discriminate|].
    rewrite orb_false_r. intros ->. reflexivity.
  - simpl. intros H. apply orb_true_iff in H as [-> | H]; [reflexivity|].
    simpl in IH. rewrite (IH H). apply orb_true_r.
Qed.

Lemma strip_by_mem (s : string) (c : ascii) :
  PyStr.mem c (PyStr.strip_by drop s) = true -> PyStr.mem c s = true.
Proof. intros H. now apply lstrip_by_mem, rstrip_by_mem. Qed.

Lemma lstrip_by_empty_all (s : string) (c : ascii) :
  PyStr.lstrip_by drop s = EmptyString -> PyStr.mem c s = true ->
  drop c = true.
Proof.
  induction s as [|d s IH]; simpl; [discriminate|].
  destruct (drop d) eqn:D; [|discriminate].
  intros E H. apply orb_true_iff in H as [H | H]; [|now apply IH].
  apply Ascii.eqb_eq in H. now subst.
Qed.

Lemma strip_by_empty_all (s : string) (c : ascii) :
  PyStr.strip_by drop s = EmptyString -> PyStr.mem c s = true ->
  drop c = true.
Proof.
  unfold PyStr.strip_by. intros E.
  destruct (lstrip_by_head drop s) as [El | (d & r & El & D)].
  - now apply lstrip_by_empty_all.
  - rewrite El in E. destruct (rstrip_by_keeps_head drop d r D) as [r' E'].
    congruence.
Qed.
End StripAppend.

Lemma isspace_not (c : ascii) :
  PyStr.isspace c = false -> forall ws, PyStr.isspace ws = true ->
  Ascii.eqb ws c = false.
Proof.
  intros Hc ws Hws. destruct (Ascii.eqb_spec ws c); [|reflexivity].
  subst. congruence.
Qed.

Lemma strip_app_space (s : string) (ws : ascii) :
  PyStr.isspace ws = true ->
  PyStr.strip (s ++ char ws)%string = PyStr.strip s.
Proof. apply strip_by_app_drop. Qed.

Lemma split_app_char (sep : ascii) (s : string) (c : ascii) :
  Ascii.eqb c sep = false ->
  exists init last,
    PyStr.split sep s = init ++ [last] /\
    PyStr.split sep (s ++ char c)%string = init ++ [(last ++ char c)%string].
Proof.
  intros Hc. induction s as [|d s (init & last & E1 & E2)]; simpl.
  - rewrite Hc. now exists [], EmptyString.
  - destruct (Ascii.eqb d sep).
    + exists (EmptyString :: init), last. now rewrite E1, E2.
    + rewrite E1, E2. destruct init as [|w init]; simpl.
      * now exists [], (String d last).
      * now exists (String d w :: init), last.
Qed.

(** White space at the end of a line does not change its cells. *)
Lemma row_of_line_app_space (line : string) (ws : ascii) :
  PyStr.isspace ws = true ->
  row_of_line (line ++ char ws)%string = row_of_line line.
Proof.
  intros Hws. unfold row_of_line.
  destruct (split_app_char "|" line ws) as (init & last & -> & ->).
  { now apply isspace_not. }
  assert (Hone : forall x,
            map PyStr.strip
                (filter (fun cell => PyStr.truthy (PyStr.strip cell)) [x]) =
            if PyStr.truthy (PyStr.strip x) then [PyStr.strip x] else []).
  { intros x. cbn [filter]. now destruct (PyStr.truthy (PyStr.strip x)). }
  rewrite !filter_app, !map_app, !Hone.
  now rewrite strip_app_space.
Qed.

Lemma startswith_Date_app (s : string) (c : ascii) :
  Ascii.eqb "e" c = false ->
  PyStr.startswith "Date" (s ++ char c)%string = PyStr.startswith "Date" s.
Proof.
  intros Hc. destruct s as [|c1 [|c2 [|c3 [|c4 s]]]];
    cbn [PyStr.startswith append char];
    rewrite ?Hc; cbn [andb]; rewrite ?andb_false_r; reflexivity.
Qed.

Lemma contains_Date_app (s : string) (c : ascii) :
  Ascii.eqb "e" c = false ->
  PyStr.contains "Date" (s ++ char c)%string = PyStr.contains "Date" s.
Proof.
  intros Hc. induction s as [|d s IH].
  - cbn [PyStr.contains PyStr.startswith append char].
    now rewrite andb_false_r.
  - change (PyStr.contains "Date" (String d s ++ char c)%string)
      with (PyStr.startswith "Date" (String d s ++ char c)%string
            || PyStr.contains "Date" (s ++ char c)%string).
    rewrite startswith_Date_app, IH by exact Hc. reflexivity.
Qed.

Lemma contains_Date_mem (s : string) :
  PyStr.contains "Date" s = true -> PyStr.mem "D" s = true.
Proof.
  induction s as [|d s IH]; [discriminate|].
  change (PyStr.contains "Date" (String d s))
    with (PyStr.startswith "Date" (String d s) || PyStr.contains "Date" s).
  intros H. apply orb_true_iff in H as [H | H].
  - cbn [PyStr.startswith] in H. apply andb_true_iff in H as [H _].
    cbn [PyStr.mem]. now rewrite H.
  - cbn [PyStr.mem]. rewrite (IH H). apply orb_true_r.
Qed.

Lemma is_candidate_app_space (line : string) (ws : ascii) :
  PyStr.isspace ws = true ->
  is_candidate (line ++ char ws)%string = is_candidate line.
Proof.
  intros Hws. unfold is_candidate. rewrite !contains_char, mem_app.
  cbn [PyStr.mem char].
  rewrite Ascii.eqb_sym, (isspace_not "|" eq_refl ws Hws).
  now rewrite !orb_false_r.
Qed.

Lemma strip_chars_app_space_truthy (line : string) (ws : ascii) :
  PyStr.truthy (PyStr.strip_chars "|- " line) = true ->
  PyStr.truthy (PyStr.strip_chars "|- " (line ++ char ws)%string) = true.
Proof.
  intros H. unfold PyStr.strip_chars in *.
  destruct (PyStr.mem ws "|- ") eqn:D.
  - now rewrite strip_by_app_drop.
  - apply truthy_nonempty. now apply strip_by_app_keep.
Qed.

(** X7: white space at the end of a line, such as the carriage return of a
    reply with CRLF line ends, changes nothing for a header row or for a
    row that is kept: the loop does with the line what it does without the
    white space, and the cells are the same. *)
Theorem trailing_whitespace_harmless_on_rows
    (st : loop_state) (line : string) (ws : ascii) :
  PyStr.isspace ws = true ->
  is_header line = true \/ keptb line = true ->
  row_of_line (line ++ char ws)%string = row_of_line line /\
  loop_body st (line ++ char ws)%string = loop_body st line.
Proof.
  intros Hws H. split; [now apply row_of_line_app_space|].
  assert (Hc := is_candidate_app_space line ws Hws).
  assert (Hd : PyStr.contains "Date" (line ++ char ws)%string =
               PyStr.contains "Date" line).
  { apply contains_Date_app.
    rewrite Ascii.eqb_sym. now apply isspace_not. }
  unfold is_candidate in Hc. unfold loop_body.
  rewrite Hc, Hd, row_of_line_app_space by exact Hws.
  destruct H as [H | H].
  - unfold is_header, is_candidate in H.
    apply andb_true_iff in H as [-> ->]. reflexivity.
  - unfold keptb, is_candidate in H.
    apply andb_true_iff in H as [H H4].
    apply andb_true_iff in H as [H Hs].
    apply andb_true_iff in H as [H1 Hn].
    apply negb_true_iff in Hn.
    rewrite H1, Hn, Hs, (strip_chars_app_space_truthy line ws Hs).
    reflexivity.
Qed.

Lemma trailing_whitespace_harmless_on_rows_witness :
  row_of_line (rent_line ++ char CR)%string = row_of_line rent_line /\
  loop_body loop_started (rent_line ++ char CR)%string =
  loop_body loop_started rent_line.
Proof.
  apply (trailing_whitespace_harmless_on_rows loop_started rent_line CR).
  - reflexivity.
  - right. reflexivity.
Defined.

(** Strings made of pipes, dashes and blanks only. *)
Lemma mem_pipe_dash_blank (c : ascii) :
  PyStr.mem c "|- " = true -> c = "|"%char \/ c = "-"%char \/ c = " "%char.
Proof.
  cbn [PyStr.mem]. rewrite orb_false_r. intros H.
  apply orb_true_iff in H as [H | H]; [left; now apply Ascii.eqb_eq|].
  apply orb_true_iff in H as [H | H]; right;
    [left | right]; now apply Ascii.eqb_eq.
Qed.

Lemma split_mem (sep : ascii) (s piece : string) (c : ascii) :
  In piece (PyStr.split sep s) -> PyStr.mem c piece = true ->
  PyStr.mem c s = true.
Proof.
  revert piece. induction s as [|d s IH]; intros piece; simpl.
  - intros [<- | []]. discriminate.
  - destruct (Ascii.eqb d sep).
    + intros [<- | Hin]; [discriminate|]. intros H.
      rewrite (IH piece Hin H). apply orb_true_r.
    + destruct (split_nonempty sep s) as (w & ws & E). rewrite E in *.
      intros [<- | Hin]; simpl.
      * intros H. apply orb_true_iff in H as [-> | H]; [reflexivity|].
        rewrite (IH w (in_eq _ _) H). apply orb_true_r.
      * intros H. rewrite (IH piece (in_cons _ _ _ Hin) H).
        apply orb_true_r.
Qed.

Lemma is_ascii_pipe_dash_blank (s : string) :
  (forall c, PyStr.mem c s = true -> PyStr.mem c "|- " = true) ->
  PyFloat.is_ascii s = true.
Proof.
  induction s as [|d s IH]; intros H; [reflexivity|].
  cbn [PyFloat.is_ascii]. rewrite IH.
  - assert (Hd : PyStr.mem d "|- " = true).
    { apply H. cbn [PyStr.mem]. now rewrite Ascii.eqb_refl. }
    destruct (mem_pipe_dash_blank d Hd) as [-> | [-> | ->]]; reflexivity.
  - intros c Hc. apply H. cbn [PyStr.mem]. rewrite Hc. apply orb_true_r.
Qed.

(** [float] refuses every string made of pipes, dashes and blanks. *)
Lemma python_float_pipe_dash_blank (s : string) :
  (forall c, PyStr.mem c s = true -> PyStr.mem c "|- " = true) ->
  PyFloat.python_float s = None.
Proof.
  intros H. unfold PyFloat.python_float, PyFloat.to_ascii.
  rewrite is_ascii_pipe_dash_blank by exact H.
  unfold PyFloat.without_underscores.
  destruct (PyStr.mem "_" s) eqn:Hu.
  { apply H in Hu. discriminate. }
  unfold PyFloat.float_from_string_inner.
  destruct (lstrip_by_head PyFloat.is_c_space s) as [-> | (c & r & E & Hc)];
    [reflexivity|].
  rewrite E.
  destruct (rstrip_by_keeps_head PyFloat.is_c_space c r Hc) as [r' E'].
  rewrite E'.
  assert (Hall : forall x, PyStr.mem x (String c r') = true ->
                           PyStr.mem x "|- " = true).
  { intros x Hx. apply H.
    apply (lstrip_by_mem PyFloat.is_c_space). rewrite E.
    apply (rstrip_by_mem PyFloat.is_c_space). now rewrite E'. }
  assert (Hcs : PyStr.mem c "|- " = true).
  { apply Hall. cbn [PyStr.mem]. now rewrite Ascii.eqb_refl. }
  destruct (mem_pipe_dash_blank c Hcs) as [-> | [-> | ->]];
    [reflexivity | | discriminate].
  destruct r' as [|d r'']; [reflexivity|].
  assert (Hds : PyStr.mem d "|- " = true).
  { apply Hall. cbn [PyStr.mem]. rewrite Ascii.eqb_refl.
    now rewrite orb_true_r. }
  destruct (mem_pipe_dash_blank d Hds) as [-> | [-> | ->]]; reflexivity.
Qed.

(** X8: the guard against separator rows is defeated by white space other
    than a blank at the end of the line.  A line made of pipes, dashes and
    blanks with four cells (such as [|---|---|---|---|]) is dropped after
    the header; the same line followed by a carriage return or a tab is
    kept as a row, its cell of dashes is not a number, and the parser
    raises, whatever the other lines are. *)
Theorem separator_with_trailing_whitespace_raises
    (pre post : list string) (sep : string) (ws : ascii) :
  existsb is_header pre = true ->
  PyStr.strip_chars "|- " sep = EmptyString ->
  List.length (row_of_line sep) = 4 ->
  PyStr.isspace ws = true -> ws <> " "%char ->
  extract_from_lines (pre ++ sep :: post) = extract_from_lines (pre ++ post)
  /\
  exists e,
    extract_from_lines (pre ++ (sep ++ char ws)%string :: post) = inl e.
Proof.
  intros Hh Hsep Hlen Hws Hblank.
  assert (Hs : start_parsing (run_loop pre loop_init) = true)
    by now apply run_loop_header_seen.
  split.
  { unfold extract_from_lines. rewrite !run_loop_app, run_loop_cons.
    rewrite loop_body_started_dropped; auto. }
  assert (Honly : forall c, PyStr.mem c sep = true ->
                            PyStr.mem c "|- " = true).
  { intros c Hc.
    apply (strip_by_empty_all (fun x => PyStr.mem x "|- ") sep c Hsep Hc). }
  assert (Hrow : row_of_line (sep ++ char ws)%string = row_of_line sep)
    by now apply row_of_line_app_space.
  assert (Hcand : is_candidate (sep ++ char ws)%string = true).
  { rewrite is_candidate_app_space by exact Hws.
    unfold is_candidate. rewrite contains_char.
    destruct (PyStr.mem "|" sep) eqn:Hp; [reflexivity|].
    exfalso. unfold row_of_line in Hlen.
    rewrite (split_absent _ _ Hp) in Hlen. cbn [filter] in Hlen.
    destruct (PyStr.truthy (PyStr.strip sep)); discriminate. }
  assert (Hdate : PyStr.contains "Date" (sep ++ char ws)%string = false).
  { destruct (PyStr.contains "Date" (sep ++ char ws)%string) eqn:Hd;
      [|reflexivity].
    exfalso. apply contains_Date_mem in Hd. rewrite mem_app in Hd.
    apply orb_true_iff in Hd as [Hd | Hd].
    - apply Honly in Hd. discriminate.
    - cbn [PyStr.mem char] in Hd. rewrite orb_false_r in Hd.
      apply Ascii.eqb_eq in Hd. subst ws. discriminate. }
  assert (Hstrip : PyStr.strip_chars "|- " (sep ++ char ws)%string
                   <> EmptyString).
  { apply strip_by_app_keep.
    destruct (PyStr.mem ws "|- ") eqn:Hm; [|reflexivity].
    exfalso. destruct (mem_pipe_dash_blank ws Hm) as [-> | [-> | ->]];
      try discriminate. now apply Hblank. }
  destruct (table_data_after_header pre post (sep ++ char ws)%string Hh)
    as [E _].
  rewrite loop_body_started_kept in E by (auto; now rewrite Hrow).
  cbn [table_data] in E. rewrite Hrow in E.
  destruct (row_of_line sep) as [|d [|c [|a [|t [|x row]]]]] eqn:Er;
    try discriminate.
  assert (Ha : PyFloat.python_float (remove_commas a) = None).
  { assert (Hin : In a (row_of_line sep)) by (rewrite Er; simpl; auto).
    unfold row_of_line in Hin. apply in_map_iff in Hin as (x & <- & Hx).
    apply filter_In in Hx as [Hx _].
    assert (Hcell : forall y, PyStr.mem y (PyStr.strip x) = true ->
                              PyStr.mem y "|- " = true).
    { intros y Hy. apply Honly. apply (split_mem "|" sep x y Hx).
      now apply (strip_by_mem PyStr.isspace). }
    unfold remove_commas. rewrite remove_char_absent.
    - now apply python_float_pipe_dash_blank.
    - destruct (PyStr.mem "," (PyStr.strip x)) eqn:Hc; [|reflexivity].
      apply Hcell in Hc. discriminate. }
  rewrite extract_from_lines_rows, E.
  apply traverse_raises_iff.
  exists [d; c; a; t], (ValueError (remove_commas a)). split.
  - rewrite !in_app_iff. left. right. now left.
  - now apply record_of_row_not_numeric.
Qed.

(** The separator row of a reply with CRLF line ends. *)
Lemma separator_with_trailing_whitespace_raises_witness :
  extract_from_lines ([header_line] ++ separator_line :: [rent_line]) =
  extract_from_lines ([header_line] ++ [rent_line]) /\
  exists e,
    extract_from_lines
      ([header_line] ++ (separator_line ++ char CR)%string :: [rent_line])
    = inl e.
Proof.
  apply (separator_with_trailing_whitespace_raises
           [header_line] [rent_line] separator_line CR);
    try reflexivity.
  discriminate.
Defined.

(* ================================================================== *)
(** ** More on the filter *)
(* ================================================================== *)

Lemma boolean_index_map {A : Type} (keep : A -> bool) (df : list A) :
  boolean_index df (map keep df) = filter keep df.
Proof.
  induction df as [|x df IH]; [reflexivity|].
  simpl. now rewrite IH.
Qed.

Lemma df_filtered_filter (df : DataFrame) (u : UserInput) :
  df_filtered df u =
  filter (fun r => existsb (String.eqb (Type_ r)) (selected_types u)) df.
Proof.
  unfold df_filtered, mask, isin. rewrite map_map.
  apply (boolean_index_map
           (fun r => existsb (String.eqb (Type_ r)) (selected_types u))).
Qed.

Lemma filter_idem {A : Type} (keep : A -> bool) (l : list A) :
  filter keep (filter keep l) = filter keep l.
Proof.
  induction l as [|x l IH]; [reflexivity|].
  simpl. destruct (keep x) eqn:E; simpl; rewrite ?E, IH; reflexivity.
Qed.

Lemma filter_all {A : Type} (keep : A -> bool) (l : list A) :
  (forall x, In x l -> keep x = true) -> filter keep l = l.
Proof.
  induction l as [|x l IH]; intros H; [reflexivity|].
  simpl. rewrite (H x (in_eq _ _)), IH; [reflexivity|].
  intros y Hy. apply H. now right.
Qed.

Lemma unique_from_In (seen series : list string) (v : string) :
  In v (unique_from seen series) <->
  In v series /\ existsb (String.eqb v) seen = false.
Proof.
  revert seen. induction series as [|x series IH]; intros seen; simpl.
  - tauto.
  - destruct (existsb (String.eqb x) seen) eqn:E.
    + rewrite IH. split; [tauto|]. intros [[<- | H] Hs]; [congruence | tauto].
    + simpl. rewrite IH. simpl. split.
      * intros [<- | [H Hs]]; [tauto|].
        apply orb_false_iff in Hs. tauto.
      * intros [[<- | H] Hs]; [tauto|].
        destruct (String.eqb_spec v x) as [-> | Hne]; [tauto|].
        right. split; [exact H|]. simpl. exact Hs.
Qed.

Lemma unique_from_NoDup (seen series : list string) :
  NoDup (unique_from seen series).
Proof.
  revert seen. induction series as [|x series IH]; intros seen; simpl.
  - constructor.
  - destruct (existsb (String.eqb x) seen); [apply IH|].
    constructor; [|apply IH].
    rewrite unique_from_In. simpl. rewrite String.eqb_refl.
    intros [_ H]. discriminate.
Qed.

(** X9: the filter is an ordinary filter on the category.  It keeps the
    rows, in their order and with their repetitions, whose category is
    among the selected ones; applying it twice is applying it once; it
    goes through the concatenation of two frames; and it shows nothing when
    nothing is selected. *)
Theorem filter_keeps_selected_categories (df : DataFrame) (u : UserInput) :
  df_filtered df u =
    filter (fun r => existsb (String.eqb (Type_ r)) (selected_types u)) df /\
  df_filtered (df_filtered df u) u = df_filtered df u /\
  (forall df', df_filtered (df ++ df') u =
               df_filtered df u ++ df_filtered df' u) /\
  (selected_types u = [] -> df_filtered df u = []).
Proof.
  split; [apply df_filtered_filter|]. split; [|split].
  - rewrite !df_filtered_filter. apply filter_idem.
  - intros df'. rewrite !df_filtered_filter. apply filter_app.
  - intros H. rewrite df_filtered_filter, H. simpl.
    induction df as [|r df IH]; [reflexivity | exact IH].
Qed.

Lemma filter_keeps_selected_categories_witness :
  df_filtered [rent_record] (mk_UserInput [] january_2025 false) = [].
Proof.
  apply (proj2 (proj2 (proj2 (filter_keeps_selected_categories
           [rent_record] (mk_UserInput [] january_2025 false))))).
  reflexivity.
Defined.

(** X10: with the selection the widget starts with, all the categories of
    the frame ([df['Type'].unique()]), the filter shows every row; these
    options list each category of the frame exactly once. *)
Theorem default_selection_shows_everything
    (df : DataFrame) (range : date * date) (click : bool) :
  let options := unique (map Type_ df) in
  df_filtered df (mk_UserInput options range click) = df /\
  NoDup options /\
  (forall t, In t options <-> exists r, In r df /\ Type_ r = t).
Proof.
  intros options.
  assert (Hopt : forall t, In t options <-> In t (map Type_ df)).
  { intros t. unfold options, unique. rewrite unique_from_In. simpl. tauto. }
  split; [|split].
  - rewrite df_filtered_filter. simpl. apply filter_all.
    intros r Hr. apply existsb_exists. exists (Type_ r).
    split; [|apply String.eqb_refl].
    apply Hopt. now apply in_map.
  - apply unique_from_NoDup.
  - intros t. rewrite Hopt, in_map_iff. split; intros (r & H1 & H2); eauto.
Qed.

(* ================================================================== *)
(** ** More on the summary metrics *)
(* ================================================================== *)

Lemma total_of_filter (label : string) (df : DataFrame) :
  total_of label df =
  series_sum
    (map Amount_MXN (filter (fun r => String.eqb (Type_ r) label) df)).
Proof.
  unfold total_of, series_eq. rewrite map_map.
  now rewrite (boolean_index_map (fun r => String.eqb (Type_ r) label)).
Qed.

(** X11: a row counts for the total income only if its category is exactly
    ["Income"], and for the total expenses only if it is exactly
    ["Expense"]; a row with any other category, such as ["income"] or
    ["Deposit"], changes none of the three metrics. *)
Theorem other_categories_change_no_metric
    (before after : DataFrame) (r : TransactionRecord) :
  (Type_ r <> "Income" ->
   total_income (before ++ r :: after) = total_income (before ++ after)) /\
  (Type_ r <> "Expense" ->
   total_expenses (before ++ r :: after) = total_expenses (before ++ after))
  /\
  (Type_ r <> "Income" -> Type_ r <> "Expense" ->
   balance (before ++ r :: after) = balance (before ++ after)).
Proof.
  assert (H : forall label, Type_ r <> label ->
            total_of label (before ++ r :: after) =
            total_of label (before ++ after)).
  { intros label Hne. rewrite !total_of_filter, !filter_app. simpl.
    apply String.eqb_neq in Hne. now rewrite Hne. }
  split; [apply H|]. split; [apply H|].
  intros Hi He. unfold balance, total_income, total_expenses.
  now rewrite !H.
Qed.

(** A row labelled ["income"], in lower case, next to the rent row. *)
Lemma other_categories_change_no_metric_witness :
  balance ([rent_record] ++
           mk_TransactionRecord "2024-11-05" "NOMINA" f64_12345 "income"
           :: [])
  = balance ([rent_record] ++ []).
Proof.
  apply (proj2 (proj2 (other_categories_change_no_metric
           [rent_record] []
           (mk_TransactionRecord "2024-11-05" "NOMINA" f64_12345 "income"))));
    discriminate.
Defined.

(* ================================================================== *)
(** ** More on the export *)
(* ================================================================== *)

Lemma fs_lookup_remove_other (p q : string) (fs : FileSystem) :
  q <> p -> fs_lookup p (fs_remove q fs) = fs_lookup p fs.
Proof.
  intros Hne. induction fs as [|[k data] fs IH]; [reflexivity|].
  simpl. destruct (String.eqb_spec k q) as [-> | Hk]; simpl.
  - rewrite IH. apply String.eqb_neq in Hne. now rewrite Hne.
  - now rewrite IH.
Qed.

Lemma fs_lookup_write_other (p q data : string) (fs : FileSystem) :
  q <> p -> fs_lookup p (fs_write q data fs) = fs_lookup p fs.
Proof.
  intros Hne. unfold fs_write. simpl.
  rewrite (proj2 (String.eqb_neq q p) Hne).
  now apply fs_lookup_remove_other.
Qed.

Lemma fs_remove_absent (p : string) (fs : FileSystem) :
  fs_exists p fs = false -> fs_remove p fs = fs.
Proof.
  unfold fs_exists. induction fs as [|[k data] fs IH]; [reflexivity|].
  simpl. destruct (String.eqb k p); simpl; [discriminate|].
  intros H. now rewrite IH.
Qed.

Lemma fs_remove_write (p data : string) (fs : FileSystem) :
  fs_remove p (fs_write p data fs) = fs_remove p fs.
Proof.
  unfold fs_write, fs_remove. simpl. rewrite String.eqb_refl. simpl.
  apply filter_idem.
Qed.

(** X12: whatever happens in it, the export leaves the page as it is and
    touches no file but its own temporary file: every other path holds
    afterwards what it held before. *)
Theorem export_touches_only_its_temporary_file
    (xlsx_writer : DataFrame -> result string) (tmp_stem : string)
    (read_fails : bool) (b64encode : string -> string)
    (df : DataFrame) (w : World) (path : string) :
  path <> (tmp_stem ++ ".xlsx")%string ->
  let after :=
    create_excel_download_link xlsx_writer tmp_stem read_fails b64encode
                               df w in
  fs_lookup path (files (fst after)) = fs_lookup path (files w) /\
  screen (fst after) = screen w.
Proof.
  intros Hne after. subst after.
  assert (Hne' : (tmp_stem ++ ".xlsx")%string <> path) by congruence.
  unfold create_excel_download_link, with_NamedTemporaryFile, io_bind,
    to_excel, read_binary, os_unlink, io_ret, set_files.
  cbn [files screen].
  destruct (xlsx_writer df) as [e|data].
  - cbn [fst files screen]. split; [|reflexivity].
    now apply fs_lookup_write_other.
  - cbn [files screen]. rewrite fs_lookup_write.
    destruct read_fails.
    + cbn [fst files screen]. split; [|reflexivity].
      now rewrite !fs_lookup_write_other.
    + cbn [files screen]. rewrite fs_exists_write.
      cbn [fst files screen]. split; [|reflexivity].
      rewrite fs_lookup_remove_other by exact Hne'.
      now rewrite !fs_lookup_write_other.
Qed.

(** A statement kept on disk is untouched by an export that fails. *)
Lemma export_touches_only_its_temporary_file_witness :
  fs_lookup "/home/user/statement.pdf"
    (files (fst (create_excel_download_link failing_writer "/tmp/tmpk3v9"
                   false (fun data => data) [rent_record]
                   {| files := [("/home/user/statement.pdf", "%PDF-1.7")];
                      screen := [] |})))
  = fs_lookup "/home/user/statement.pdf"
      [("/home/user/statement.pdf", "%PDF-1.7")].
Proof.
  apply (export_touches_only_its_temporary_file
           failing_writer "/tmp/tmpk3v9" false (fun data => data)
           [rent_record]
           {| files := [("/home/user/statement.pdf", "%PDF-1.7")];
              screen := [] |}
           "/home/user/statement.pdf").
  discriminate.
Defined.

Lemma create_excel_download_link_fresh
    (xlsx_writer : DataFrame -> result string) (tmp_stem : string)
    (b64encode : string -> string)
    (df : DataFrame) (w : World) (data : string) :
  xlsx_writer df = inr data ->
  fs_exists (tmp_stem ++ ".xlsx")%string (files w) = false ->
  create_excel_download_link xlsx_writer tmp_stem false b64encode df w
  = (w, inr (data_uri_prefix ++ b64encode data)%string).
Proof.
  intros Hw Hfresh.
  unfold create_excel_download_link, with_NamedTemporaryFile, io_bind,
    to_excel, read_binary, os_unlink, io_ret, set_files.
  cbn [files screen]. rewrite Hw. cbn [files screen].
  rewrite fs_lookup_write. cbn [files screen]. rewrite fs_exists_write.
  rewrite !fs_remove_write, fs_remove_absent by exact Hfresh.
  destruct w. reflexivity.
Qed.

(** X13: when the writer and the reading succeed and the temporary name is
    a new one, the export gives back the world exactly as it found it, and
    its link is the fixed prefix followed by the base64 text of the bytes
    the writer produced for the frame. *)
Theorem export_returns_link_and_restores_files
    (xlsx_writer : DataFrame -> result string) (tmp_stem : string)
    (b64encode : string -> string)
    (df : DataFrame) (w : World) (data : string) :
  xlsx_writer df = inr data ->
  fs_exists (tmp_stem ++ ".xlsx")%string (files w) = false ->
  create_excel_download_link xlsx_writer tmp_stem false b64encode df w
  = (w, inr (data_uri_prefix ++ b64encode data)%string).
Proof. apply create_excel_download_link_fresh. Qed.

Lemma export_returns_link_and_restores_files_witness :
  create_excel_download_link dates_writer "/tmp/tmpk3v9" false
    (fun data => data) [rent_record] empty_world
  = (empty_world, inr (data_uri_prefix ++ "2024-11-01")%string).
Proof.
  apply (export_returns_link_and_restores_files
           dates_writer "/tmp/tmpk3v9" (fun data => data)
           [rent_record] empty_world "2024-11-01");
    reflexivity.
Defined.

(* ================================================================== *)
(** ** What [main] puts on the page *)
(* ================================================================== *)

Section MainFacts.
Variable xlsx_writer : DataFrame -> result string.
Variable tmp_stem : string.
Variable read_fails : bool.
Variable b64encode : string -> string.
Variable date_input_defaults : DataFrame -> result unit.

(** [main] up to the export, once the reply has parsed and the date widget
    has been built. *)
Lemma main_up_to_export (response : string) (df : DataFrame)
    (u : UserInput) (w : World) :
  extract_table_from_response response = inr df ->
  date_input_defaults df = inr tt ->
  main xlsx_writer tmp_stem read_fails b64encode date_input_defaults
       (Some response) u w =
  let w1 := {| files := files w;
               screen := screen w ++ page_before_parsing ++ filter_tab df u |}
  in
  match create_excel_download_link xlsx_writer tmp_stem read_fails
          b64encode (df_filtered df u) w1 with
  | (w2, inl e) => (w2, inl e)
  | (w2, inr link) =>
      ({| files := files w2;
          screen := screen w2 ++ [DownloadLink link] ++ summary_tab df |},
       inr tt)
  end.
Proof.
  intros Hx Hd.
  unfold main, io_bind, io_lift, show, io_ret. cbn [files screen].
  rewrite Hx. cbn [files screen]. rewrite Hd.
  unfold page_before_parsing, filter_tab, summary_tab.
  destruct (preview_clicked u); cbn [files screen app];
    rewrite <- !app_assoc; cbn [app];
    match goal with
    | |- context [create_excel_download_link ?a ?b ?c ?d ?e ?f] =>
        destruct (create_excel_download_link a b c d e f) as [w2 [e0|link]]
    end;
    cbn [files screen]; rewrite <- ?app_assoc; reflexivity.
Qed.
End MainFacts.

(** X14: when every step succeeds, [main] leaves the files as they were
    and puts on the page, after the title and the upload prompt, the first
    tab with the filtered frame, the link to the workbook of that same
    filtered frame, and the second tab, whose three metrics and chart are
    computed from all the parsed rows: the selection of categories does not
    change them. *)
Theorem main_shows_filtered_table_and_overall_metrics
    (xlsx_writer : DataFrame -> result string) (tmp_stem : string)
    (b64encode : string -> string)
    (date_input_defaults : DataFrame -> result unit)
    (response : string) (df : DataFrame) (data : string)
    (u : UserInput) (w : World) :
  extract_table_from_response response = inr df ->
  date_input_defaults df = inr tt ->
  xlsx_writer (df_filtered df u) = inr data ->
  fs_exists (tmp_stem ++ ".xlsx")%string (files w) = false ->
  main xlsx_writer tmp_stem false b64encode date_input_defaults
       (Some response) u w
  = ({| files := files w;
        screen := screen w ++ page_before_parsing ++ filter_tab df u ++
                  [DownloadLink (data_uri_prefix ++ b64encode data)%string]
                  ++ summary_tab df |},
     inr tt).
Proof.
  intros Hx Hd Hw Hfresh.
  rewrite (main_up_to_export _ _ _ _ _ response df u w Hx Hd).
  cbv zeta.
  rewrite (create_excel_download_link_fresh _ _ _ _ _ data Hw)
    by exact Hfresh.
  cbn [files screen]. now rewrite <- !app_assoc.
Qed.

(** The rent reply with no category selected: the table is empty, the
    metrics are those of the rent row all the same. *)
Lemma main_shows_filtered_table_and_overall_metrics_witness :
  main dates_writer "/tmp/tmpk3v9" false (fun data => data) date_input_ok
       (Some (PyStr.join LF [header_line; rent_line]))
       (mk_UserInput [] january_2025 false) empty_world
  = ({| files := [];
        screen := [] ++ page_before_parsing ++
                  filter_tab [rent_record]
                             (mk_UserInput [] january_2025 false) ++
                  [DownloadLink (data_uri_prefix ++ "")%string] ++
                  summary_tab [rent_record] |},
     inr tt).
Proof.
  apply (main_shows_filtered_table_and_overall_metrics
           dates_writer "/tmp/tmpk3v9" (fun data => data) date_input_ok
           (PyStr.join LF [header_line; rent_line]) [rent_record] ""
           (mk_UserInput [] january_2025 false) empty_world);
    vm_compute; reflexivity.
Defined.

(** X15: [main] stops at the step that raises.  When the date widget
    raises, the page ends with the category widget and no table is shown.
    When the spreadsheet writer raises, the filtered table is already on
    the page, but the download link and the whole summary tab (metrics and
    chart) are missing, and the temporary file of the export is left on
    disk. *)
Theorem main_stops_where_it_raises
    (xlsx_writer : DataFrame -> result string) (tmp_stem : string)
    (read_fails : bool) (b64encode : string -> string)
    (date_input_defaults : DataFrame -> result unit)
    (response : string) (df : DataFrame) (e : exn)
    (u : UserInput) (w : World) :
  extract_table_from_response response = inr df ->
  (date_input_defaults df = inl e ->
   main xlsx_writer tmp_stem read_fails b64encode date_input_defaults
        (Some response) u w
   = ({| files := files w;
         screen := screen w ++ page_before_parsing ++
                   [ Text "Transaction Data Preview"; Text "Filter Data:";
                     Multiselect "Filter by Type" (unique (map Type_ df)) ]
      |}, inl e)) /\
  (date_input_defaults df = inr tt ->
   xlsx_writer (df_filtered df u) = inl e ->
   main xlsx_writer tmp_stem read_fails b64encode date_input_defaults
        (Some response) u w
   = ({| files := fs_write (tmp_stem ++ ".xlsx")%string "" (files w);
         screen := screen w ++ page_before_parsing ++ filter_tab df u |},
      inl e)).
Proof.
  intros Hx. split.
  - intros Hd. unfold main, io_bind, io_lift, show, io_ret.
    cbn [files screen]. rewrite Hx. cbn [files screen]. rewrite Hd.
    unfold page_before_parsing. now rewrite <- !app_assoc.
  - intros Hd Hw.
    rewrite (main_up_to_export _ _ _ _ _ response df u w Hx Hd).
    cbv zeta.
    unfold create_excel_download_link, with_NamedTemporaryFile, io_bind,
      to_excel, set_files.
    cbn [files screen]. now rewrite Hw.
Qed.

Lemma main_stops_where_it_raises_witness :
  main failing_writer "/tmp/tmpk3v9" false (fun data => data) date_input_ok
       (Some (PyStr.join LF [header_line; rent_line]))
       expense_in_january_2025 empty_world
  = ({| files := fs_write "/tmp/tmpk3v9.xlsx" "" [];
        screen := [] ++ page_before_parsing ++
                  filter_tab [rent_record] expense_in_january_2025 |},
     inl (OSError "No space left on device")).
Proof.
  apply (proj2 (main_stops_where_it_raises
           failing_writer "/tmp/tmpk3v9" false (fun data => data)
           date_input_ok (PyStr.join LF [header_line; rent_line])
           [rent_record] (OSError "No space left on device")
           expense_in_january_2025 empty_world
           ltac:(vm_compute; reflexivity)));
    reflexivity.
Defined.

(* ================================================================== *)
(** ** From the PDF to the reply *)
(* ================================================================== *)

Section PdfPipelineFacts.
Variable PdfPage : Type.
Variable fitz_open : string -> outcome (list PdfPage).
Variable page_png : PdfPage -> outcome string.
Variable secrets : string -> option string.
Variable b64encode : string -> string.
Variable messages_create : string -> Request -> outcome (list string).

(** The loop over the page numbers, started after the pages [done]. *)
Lemma pages_loop_returns (done rest : list PdfPage) (acc : list string)
    (images : list string) :
  pages_loop PdfPage page_png (done ++ rest)
             (seq (List.length done) (List.length rest)) acc = inr images <->
  exists imgs, images = acc ++ imgs /\
               Forall2 (fun page img => page_png page = inr img) rest imgs.
Proof.
  revert done acc. induction rest as [|p rest IH]; intros done acc.
  - simpl. split.
    + intros H. injection H as <-. exists []. split; [|constructor].
      now rewrite app_nil_r.
    + intros (imgs & -> & H). inversion H. now rewrite app_nil_r.
  - cbn [List.length seq pages_loop].
    rewrite nth_error_app2, Nat.sub_diag by apply Nat.le_refl.
    cbn [nth_error]. unfold obind.
    destruct (page_png p) as [e|img] eqn:Ep.
    + split; [discriminate|].
      intros (imgs & _ & H). inversion H; subst. congruence.
    + assert (E : done ++ p :: rest = (done ++ [p]) ++ rest)
        by now rewrite <- app_assoc.
      assert (El : S (List.length done) = List.length (done ++ [p]))
        by (rewrite length_app; simpl; lia).
      rewrite E, El, IH. split.
      * intros (imgs & -> & H). exists (img :: imgs).
        split; [now rewrite <- app_assoc|]. now constructor.
      * intros (imgs & -> & H). inversion H as [|? img' ? imgs' Hp Hr]; subst.
        exists imgs'. split; [|exact Hr].
        rewrite <- app_assoc. simpl. congruence.
Qed.

Lemma pages_loop_raises (done rest : list PdfPage) (acc : list string)
    (e : PipelineError) :
  pages_loop PdfPage page_png (done ++ rest)
             (seq (List.length done) (List.length rest)) acc = inl e ->
  exists page, In page rest /\ page_png page = inl e.
Proof.
  revert done acc. induction rest as [|p rest IH]; intros done acc.
  - discriminate.
  - cbn [List.length seq pages_loop].
    rewrite nth_error_app2, Nat.sub_diag by apply Nat.le_refl.
    cbn [nth_error]. unfold obind.
    destruct (page_png p) as [e'|img] eqn:Ep.
    + intros H. injection H as <-. exists p. split; [now left | exact Ep].
    + assert (E : done ++ p :: rest = (done ++ [p]) ++ rest)
        by now rewrite <- app_assoc.
      assert (El : S (List.length done) = List.length (done ++ [p]))
        by (rewrite length_app; simpl; lia).
      rewrite E, El. intros H. apply IH in H as (page & Hin & Hp).
      exists page. split; [now right | exact Hp].
Qed.

Lemma convert_pdf_to_images_returns (pdf_content : string)
    (images : list string) :
  convert_pdf_to_images PdfPage fitz_open page_png pdf_content = inr images
  <->
  exists doc, fitz_open pdf_content = inr doc /\
              Forall2 (fun page img => page_png page = inr img) doc images.
Proof.
  unfold convert_pdf_to_images, obind.
  destruct (fitz_open pdf_content) as [e|doc].
  - split; [discriminate | intros (doc & H & _); discriminate].
  - rewrite (pages_loop_returns [] doc [] images). split.
    + intros (imgs & -> & H). now exists doc.
    + intros (doc' & Hd & H). injection Hd as <-. now exists images.
Qed.

Lemma build_content_map (base64_images : list string) :
  build_content base64_images =
  TextBlock prompt :: map image_block base64_images.
Proof.
  unfold build_content.
  assert (H : forall content,
            fold_left
              (fun content img_base64 => content ++ [image_block img_base64])
              base64_images content =
            content ++ map image_block base64_images).
  { induction base64_images as [|img imgs IH]; intros content; simpl.
    - now rewrite app_nil_r.
    - now rewrite IH, <- app_assoc. }
  now rewrite H.
Qed.

Lemma process_pdf_request (pdf_content : string) (key : string)
    (images : list string) :
  secrets "ANTHROPIC_API_KEY" = Some key ->
  convert_pdf_to_images PdfPage fitz_open page_png pdf_content = inr images ->
  process_pdf PdfPage fitz_open page_png secrets b64encode messages_create
              pdf_content =
  match messages_create key (request_for b64encode images) with
  | inl e => inl e
  | inr [] => inl IndexError
  | inr (first :: _) => inr first
  end.
Proof.
  intros Hk Hc. unfold process_pdf, init_client, obind.
  rewrite Hk, Hc, build_content_map, map_map. reflexivity.
Qed.
End PdfPipelineFacts.

(** X16: [convert_pdf_to_images] gives one image for each page of the
    document, in the order of the pages: it returns a list exactly when the
    document opens and every page renders, and the list is then made of the
    PNG bytes of the pages, as many as there are pages.  The loop never
    reads outside the document: an exception it raises is the one raised
    by opening the document or by rendering one of its pages. *)
Theorem convert_pdf_to_images_one_image_per_page
    (PdfPage : Type) (fitz_open : string -> outcome (list PdfPage))
    (page_png : PdfPage -> outcome string) (pdf_content : string) :
  (forall images,
     convert_pdf_to_images PdfPage fitz_open page_png pdf_content
     = inr images <->
     exists doc, fitz_open pdf_content = inr doc /\
                 Forall2 (fun page img => page_png page = inr img)
                         doc images) /\
  (forall images doc,
     convert_pdf_to_images PdfPage fitz_open page_png pdf_content
     = inr images ->
     fitz_open pdf_content = inr doc ->
     List.length images = List.length doc) /\
  (forall e,
     convert_pdf_to_images PdfPage fitz_open page_png pdf_content = inl e ->
     fitz_open pdf_content = inl e \/
     exists doc page, fitz_open pdf_content = inr doc /\ In page doc /\
                      page_png page = inl e).
Proof.
  split; [apply convert_pdf_to_images_returns|]. split.
  - intros images doc H Hd.
    apply convert_pdf_to_images_returns in H as (doc' & Hd' & H).
    rewrite Hd in Hd'. injection Hd' as <-.
    symmetry. now apply Forall2_length in H.
  - intros e. unfold convert_pdf_to_images, obind.
    destruct (fitz_open pdf_content) as [e'|doc];
      [intros H; left; injection H as <-; reflexivity|].
    intros H. right.
    apply (pages_loop_raises PdfPage page_png [] doc []) in H
      as (page & Hin & Hp).
    now exists doc, page.
Qed.

(** A document of three pages, a page being given by its number. *)
Lemma convert_pdf_to_images_one_image_per_page_witness :
  List.length ["png-1"; "png-2"; "png-3"] = List.length [1; 2; 3].
Proof.
  apply (proj1 (proj2 (convert_pdf_to_images_one_image_per_page
           nat (fun _ => inr [1; 2; 3])
           (fun n => inr (append "png-" (String (ascii_of_nat (48 + n))
                                                 EmptyString)))
           "%PDF-1.7"))
          ["png-1"; "png-2"; "png-3"] [1; 2; 3]);
    reflexivity.
Defined.


